(** * composer/callbacks/mlperf.py: the MLPerf results callback

    A shallow embedding of [MLPerfCallback] and [get_system_description].
    The callback object is a record, its hooks are state transformers that
    may raise, and everything the module only calls (the MLPerf logger, the
    operating system, the distributed runtime, the trainer's logger) is a
    component of an explicit [World] or a reading of the [Env]ironment.

    Python values are modelled as far as the module looks at them: strings
    as [string], [int]s as [Z], the target and the metrics as binary64
    floats, a dictionary built in place as an association list in insertion
    order, the trainer's metrics as finite maps, and a dataloader by what
    the [isinstance] checks and attribute reads of [fit_start] can see. *)

From Stdlib Require Import ZArith String Ascii List Floats DecimalString Lia.
From stdpp Require Import base option list gmap strings.

Import ListNotations.
Local Open Scope string_scope.
Local Open Scope Z_scope.
Set Warnings "-register-all,-inexact-float".

(** ** Python strings *)

(** [s.startswith(p)]. *)
Fixpoint startswith (s p : string) {struct p} : bool :=
  match p with
  | EmptyString => true
  | String c p' =>
      match s with
      | EmptyString => false
      | String a s' => Ascii.eqb a c && startswith s' p'
      end
  end.

(** [s.endswith(c)] for a one-character suffix [c]. *)
Fixpoint endswith_char (s : string) (c : ascii) : bool :=
  match s with
  | EmptyString => false
  | String a EmptyString => Ascii.eqb a c
  | String _ rest => endswith_char rest c
  end.

(** [s.replace(old, new)] where [old] and [new] are single characters. *)
Fixpoint str_replace (s : string) (old new : ascii) : string :=
  match s with
  | EmptyString => EmptyString
  | String a rest =>
      String (if Ascii.eqb a old then new else a) (str_replace rest old new)
  end.

(** [str(n)], also what an f-string writes for an [int]. *)
Definition str_of_int (n : Z) : string := NilZero.string_of_int (Z.to_int n).

(** [float(n)] for an [int]: the nearest binary64 value. *)
Definition float_of_int (n : Z) : float :=
  SF2Prim (binary_normalize prec emax n 0 false).

Definition sep : ascii := "/"%char.

(** One round of the loop of [posixpath.join]. *)
Definition join_step (path b : string) : string :=
  if startswith b "/" then b
  else if (String.eqb path "" || endswith_char path sep)%bool then path ++ b
  else path ++ "/" ++ b.

(** [os.path.join(a, *p)] on a POSIX system. *)
Definition os_path_join (a : string) (p : list string) : string :=
  fold_left join_step p a.

(** ** Python values, exceptions *)

Inductive pyval :=
| VNone
| VStr (s : string)
| VInt (n : Z)
| VFloat (f : float)
| VDict (d : list (string * pyval)).

(** A [dict] with string keys, in insertion order. *)
Abbreviation dict := (list (string * pyval)).

Fixpoint dict_get (d : dict) (k : string) : option pyval :=
  match d with
  | [] => None
  | (k', v) :: rest => if String.eqb k' k then Some v else dict_get rest k
  end.

(** [d[k] = v]: an existing key keeps its place, a new one goes last. *)
Fixpoint dict_set (d : dict) (k : string) (v : pyval) : dict :=
  match d with
  | [] => [(k, v)]
  | (k', v') :: rest =>
      if String.eqb k' k then (k', v) :: rest else (k', v') :: dict_set rest k v
  end.

Definition dict_has (d : dict) (k : string) : bool :=
  match dict_get d k with Some _ => true | None => false end.

Inductive exn_class :=
| ImportError | ValueError | TypeError | FileExistsError
| KeyError | IndexError | AttributeError | ZeroDivisionError
| OSError | CalledProcessError.

Inductive exn := Exn (c : exn_class) (msg : string).

Definition class_of (e : exn) : exn_class := let 'Exn c _ := e in c.

#[global] Instance exn_class_eq_dec : EqDecision exn_class.
Proof. solve_decision. Defined.

(** ** Computations that read and write a state and may raise

    A raised exception keeps the state reached so far: Python does not undo
    the assignments and calls made before the [raise]. *)

Inductive outcome (A : Type) :=
| Returns (a : A)
| Raises (e : exn).
Arguments Returns {A} a.
Arguments Raises {A} e.

Definition M (St A : Type) : Type := St -> outcome A * St.

#[global] Instance M_ret {St} : MRet (M St) := fun A a s => (Returns a, s).

#[global] Instance M_bind {St} : MBind (M St) := fun A B f c s =>
  match c s with
  | (Returns a, s') => f a s'
  | (Raises e, s') => (Raises e, s')
  end.

Definition raise {St A} (c : exn_class) (msg : string) : M St A :=
  fun s => (Raises (Exn c msg), s).

Definition gets {St A} (f : St -> A) : M St A := fun s => (Returns (f s), s).

Definition modify {St} (f : St -> St) : M St unit := fun s => (Returns tt, f s).

Definition when {St} (b : bool) (c : M St unit) : M St unit :=
  if b then c else mret tt.

(** [for x in l: body(x)]. *)
Fixpoint for_each {St A} (l : list A) (body : A -> M St unit) : M St unit :=
  match l with
  | [] => mret tt
  | x :: rest => body x;; for_each rest body
  end.

Definition raised {A} (o : outcome A) : option exn_class :=
  match o with
  | Returns _ => None
  | Raises e => Some (class_of e)
  end.

(** [d[k]]. *)
Definition getitem {St} (d : dict) (k : string) : M St pyval :=
  match dict_get d k with
  | Some v => mret v
  | None => raise KeyError k
  end.

(** The receiver of a [str] method. *)
Definition as_str {St} (v : pyval) : M St string :=
  match v with
  | VStr s => mret s
  | _ => raise AttributeError "object has no attribute 'replace'"
  end.

(** ** The collaborators

    The keys of [mlperf_logging.mllog.constants] that the module uses. The
    library defines them as pairwise different strings; here they are the
    constructors of an enumeration. *)
Inductive mlkey :=
| CACHE_CLEAR | INIT_START | INIT_STOP | RUN_START | RUN_STOP
| SUBMISSION_BENCHMARK | SUBMISSION_DIVISION | SUBMISSION_ORG
| SUBMISSION_PLATFORM | SUBMISSION_STATUS
| SEED | GLOBAL_BATCH_SIZE | GRADIENT_ACCUMULATION_STEPS
| TRAIN_SAMPLES | EVAL_SAMPLES
| EPOCH_START | EPOCH_STOP | BLOCK_START | BLOCK_STOP
| EVAL_START | EVAL_STOP | EVAL_ACCURACY.

#[global] Instance mlkey_eq_dec : EqDecision mlkey.
Proof. solve_decision. Defined.

(** [mllogger.start] opens an interval, [mllogger.event] is a point in time. *)
Inductive log_kind := IntervalStart | PointInTime.

(** One call of the MLPerf logger. *)
Record LogRecord := {
  lr_kind : log_kind;
  lr_key : mlkey;
  lr_value : pyval;
  lr_metadata : option dict;
}.

(** A [logging.FileHandler] object. *)
Record FileHandler := {
  fh_filename : string;
  fh_level : Z;
  fh_closed : bool;
}.

Definition logging_NOTSET : Z := 0.
Definition logging_INFO : Z := 20.

(** Calls that leave the process: the file system, a subprocess, and the
    barrier of the distributed runtime. *)
Inductive ext_call :=
| MakeDirs (path : string)
| WriteJson (path : string) (obj : dict)
| PathExists (path : string)
| OpenAppend (path : string)
| RunCommand (cmd : list string)
| Barrier.

(** [logger.file_artifact(LogLevel.FIT, artifact_name, file_path)]. *)
Record Artifact := {
  artifact_name : string;
  file_path : string;
}.

(** What the module can change outside the callback object. Handlers are
    Python objects: the logger holds references (here indices into
    [handler_objects]) and compares them by identity. *)
Record World := {
  mllog_records : list LogRecord;
  mllogger_handlers : list nat;
  handler_objects : list FileHandler;
  calls : list ext_call;
  artifacts : list Artifact;
  warnings : list string;
}.

(** What the module reads from its surroundings. The operating system
    answers a call as a function of the calls made before it, so that any
    file system, and any interference by other processes, is an instance:
    [os_error] is the exception a call ends with, if any, and
    [os_path_exists] the answer of [os.path.exists]. *)
Record Env := {
  mlperf_available : bool;
  global_rank : Z;
  local_rank : Z;
  world_size : Z;
  local_world_size : Z;
  cuda_is_available : bool;
  cuda_device_name : string;
  cuda_version : string;
  cpu_brand_raw : option string;
  cpu_count_physical : option Z;
  torch_version : string;
  composer_version : string;
  python_version : string;
  platform_system : string;
  platform_release : string;
  os_error : list ext_call -> ext_call -> option exn;
  os_path_exists : list ext_call -> string -> bool;
}.

Definition set_records (f : list LogRecord -> list LogRecord) (w : World) : World :=
  {| mllog_records := f (mllog_records w);
     mllogger_handlers := mllogger_handlers w;
     handler_objects := handler_objects w;
     calls := calls w;
     artifacts := artifacts w;
     warnings := warnings w |}.

Definition set_handlers (f : list nat -> list nat) (w : World) : World :=
  {| mllog_records := mllog_records w;
     mllogger_handlers := f (mllogger_handlers w);
     handler_objects := handler_objects w;
     calls := calls w;
     artifacts := artifacts w;
     warnings := warnings w |}.

Definition set_objects (f : list FileHandler -> list FileHandler) (w : World) : World :=
  {| mllog_records := mllog_records w;
     mllogger_handlers := mllogger_handlers w;
     handler_objects := f (handler_objects w);
     calls := calls w;
     artifacts := artifacts w;
     warnings := warnings w |}.

Definition set_calls (f : list ext_call -> list ext_call) (w : World) : World :=
  {| mllog_records := mllog_records w;
     mllogger_handlers := mllogger_handlers w;
     handler_objects := handler_objects w;
     calls := f (calls w);
     artifacts := artifacts w;
     warnings := warnings w |}.

Definition set_artifacts (f : list Artifact -> list Artifact) (w : World) : World :=
  {| mllog_records := mllog_records w;
     mllogger_handlers := mllogger_handlers w;
     handler_objects := handler_objects w;
     calls := calls w;
     artifacts := f (artifacts w);
     warnings := warnings w |}.

Definition set_warnings (f : list string -> list string) (w : World) : World :=
  {| mllog_records := mllog_records w;
     mllogger_handlers := mllogger_handlers w;
     handler_objects := handler_objects w;
     calls := calls w;
     artifacts := artifacts w;
     warnings := f (warnings w) |}.

Section World_ops.
Variable env : Env.

(** [warnings.warn(msg)]. *)
Definition warn (msg : string) : M World unit :=
  modify (set_warnings (fun l => (l ++ [msg])%list)).

(** A call to the operating system: it is recorded, and it ends with the
    exception the system answers, if any. *)
Definition os_call (c : ext_call) : M World unit :=
  fun w =>
    let w' := set_calls (fun l => (l ++ [c])%list) w in
    match os_error env (calls w) c with
    | Some e => (Raises e, w')
    | None => (Returns tt, w')
    end.

(** [os.makedirs(path, exist_ok=True)]. *)
Definition os_makedirs (path : string) : M World unit := os_call (MakeDirs path).

(** [os.path.exists(path)]: never raises. *)
Definition os_path_exists_ (path : string) : M World bool :=
  fun w => (Returns (os_path_exists env (calls w) path),
            set_calls (fun l => (l ++ [PathExists path])%list) w).

(** [dist.barrier()]. *)
Definition dist_barrier : M World unit :=
  modify (set_calls (fun l => (l ++ [Barrier])%list)).

(** [mllogger.start(key=key)]. *)
Definition mllogger_start (key : mlkey) : M World unit :=
  modify (set_records (fun l => (l ++
    [{| lr_kind := IntervalStart; lr_key := key;
        lr_value := VNone; lr_metadata := None |}])%list)).

(** [mllogger.event(key=key, value=value, metadata=metadata)]. *)
Definition mllogger_event (key : mlkey) (value : pyval) (metadata : option dict)
  : M World unit :=
  modify (set_records (fun l => (l ++
    [{| lr_kind := PointInTime; lr_key := key;
        lr_value := value; lr_metadata := metadata |}])%list)).

(** [logging.FileHandler(filename)]: opens the file for appending and
    returns the new handler object. *)
Definition logging_FileHandler (filename : string) : M World nat :=
  os_call (OpenAppend filename);;
  h ← gets (fun w => length (handler_objects w));
  modify (set_objects (fun l => (l ++
    [{| fh_filename := filename; fh_level := logging_NOTSET;
        fh_closed := false |}])%list));;
  mret h.

(** [handler.setLevel(level)]. *)
Definition handler_setLevel (h : nat) (level : Z) : M World unit :=
  modify (set_objects (fun l =>
    match l !! h with
    | Some o => <[h := {| fh_filename := fh_filename o; fh_level := level;
                          fh_closed := fh_closed o |}]> l
    | None => l
    end)).

(** [handler.close()]. *)
Definition handler_close (h : nat) : M World unit :=
  modify (set_objects (fun l =>
    match l !! h with
    | Some o => <[h := {| fh_filename := fh_filename o; fh_level := fh_level o;
                          fh_closed := true |}]> l
    | None => l
    end)).

(** [Logger.addHandler]: a handler already attached is not attached twice. *)
Definition logger_addHandler (h : nat) : M World unit :=
  modify (set_handlers (fun l => if bool_decide (h ∈ l) then l else (l ++ [h])%list)).

(** [list.remove(x)] under the guard [x in l]. *)
Fixpoint remove_first (x : nat) (l : list nat) : list nat :=
  match l with
  | [] => []
  | y :: rest => if bool_decide (x = y) then rest else y :: remove_first x rest
  end.

(** [Logger.removeHandler(hdlr)]; [hdlr] may be [None], which is never
    among the handlers. *)
Definition logger_removeHandler (h : option nat) : M World unit :=
  match h with
  | Some h => modify (set_handlers (remove_first h))
  | None => mret tt
  end.

(** [subprocess.run(cmd, check=True, text=True)]. *)
Definition subprocess_run (cmd : list string) : M World unit :=
  os_call (RunCommand cmd).

(** [logger.file_artifact(LogLevel.FIT, name, path)]. *)
Definition logger_file_artifact (name path : string) : M World unit :=
  modify (set_artifacts (fun l => (l ++
    [{| artifact_name := name; file_path := path |}])%list)).

(** [rank_zero()]. *)
Definition rank_zero : bool := global_rank env =? 0.

(** [require_mlperf_logging()]. *)
Definition require_mlperf_logging : M World unit :=
  if negb (mlperf_available env)
  then raise ImportError
    "Please install with `pip install mosaicml[mlperf]` and also install the logging library from: https://github.com/mlcommons/logging"
  else mret tt.
End World_ops.

(** ** [get_system_description] *)

Section System_description.
Variable env : Env.

(** [a / b] on two [int]s. *)
Definition true_div (a b : Z) : M World float :=
  if b =? 0 then raise ZeroDivisionError "division by zero"
  else mret (PrimFloat.div (float_of_int a) (float_of_int b)).

(** [str(psutil.cpu_count(logical=False))]: the count may be [None]. *)
Definition str_of_count (n : option Z) : string :=
  match n with
  | Some n => str_of_int n
  | None => "None"
  end.

Definition get_system_description
    (submitter division status : string) (system_name : option string)
  : M World dict :=
  let is_cuda := cuda_is_available env in
  let brand_raw := default "CPU" (cpu_brand_raw env) in
  number_of_nodes ← true_div (world_size env) (local_world_size env);
  let system_desc : dict :=
    [ ("submitter", VStr submitter);
      ("division", VStr division);
      ("status", VStr status);
      ("number_of_nodes", VFloat number_of_nodes);
      ("host_processors_per_node", VStr "");
      ("host_processor_model_name", VStr brand_raw);
      ("host_processor_core_count", VStr (str_of_count (cpu_count_physical env)));
      ("host_processor_vcpu_count", VStr "");
      ("host_processor_frequency", VStr "");
      ("host_processor_caches", VStr "");
      ("host_processor_interconnect", VStr "");
      ("host_memory_capacity", VStr "");
      ("host_storage_type", VStr "");
      ("host_storage_capacity", VStr "");
      ("host_networking", VStr "");
      ("host_networking_topology", VStr "");
      ("host_memory_configuration", VStr "");
      ("accelerators_per_node",
        VStr (if is_cuda then str_of_int (local_world_size env) else "0"));
      ("accelerator_model_name",
        VStr (if is_cuda then cuda_device_name env else ""));
      ("accelerator_host_interconnect", VStr "");
      ("accelerator_frequency", VStr "");
      ("accelerator_on-chip_memories", VStr "");
      ("accelerator_memory_configuration", VStr "");
      ("accelerator_memory_capacity", VStr "");
      ("accelerator_interconnect", VStr "");
      ("accelerator_interconnect_topology", VStr "");
      ("cooling", VStr "");
      ("hw_notes", VStr "");
      ("framework",
        VStr ("PyTorch v" ++ torch_version env ++
              " and MosaicML composer v" ++ composer_version env));
      ("other_software_stack", VDict
        [ ("cuda_version", VStr (if is_cuda then cuda_version env else ""));
          ("composer_version", VStr (composer_version env));
          ("python_version", VStr (python_version env)) ]);
      ("operating_system",
        VStr (platform_system env ++ " " ++ platform_release env));
      ("sw_notes", VStr "") ] in
  when (negb (PrimFloat.eqb number_of_nodes 1))
    (warn "Number of nodes > 1 not tested, proceed with caution.");;
  system_name ←
    match system_name with
    | None =>
        let world_size := world_size env in
        device_name ←
          (if is_cuda then getitem system_desc "accelerator_model_name"
           else getitem system_desc "host_processor_model_name");
        device_name ← as_str device_name;
        let device_name := str_replace device_name " " "_" in
        mret (str_of_int world_size ++ "x" ++ device_name ++ "_composer")
    | Some system_name => mret system_name
    end;
  mret (dict_set system_desc "system_name" (VStr system_name)).
End System_description.

(** ** The trainer's [State], as far as the callback reads it *)

(** A dataset is [Sized] when it has a [__len__], whose value is [len]. *)
Inductive Dataset :=
| SizedDataset (len : Z)
| UnsizedDataset.

(** A value found where a dataloader is expected: a [torch] [DataLoader]
    with its [batch_size] and [dataset], or some other iterable. *)
Inductive Loader :=
| DataLoader (batch_size : option Z) (dataset : Dataset)
| OtherIterable.

(** An evaluator; [ev_dataloader] is [evaluator.dataloader.dataloader]. *)
Record Evaluator := {
  ev_dataloader : Loader;
}.

(** [timer_epoch] is [state.timer.epoch.value]; [current_metrics] maps a
    label to the metrics computed under it. *)
Record State := {
  train_dataloader : Loader;
  evaluators : list Evaluator;
  seed : Z;
  grad_accum : Z;
  timer_epoch : Z;
  current_metrics : gmap string (gmap string float);
}.

(** ** [MLPerfCallback] *)

Definition BENCHMARKS : list string := ["resnet"].
Definition DIVISIONS : list string := ["open"].
Definition STATUS : list string := ["onprem"; "cloud"; "preview"].

Module MLPerfCallback.

(** The attributes of the object. [self.mllogger] refers to the one
    logger of the process, which is part of the [World]. *)
Record Self := {
  target : float;
  benchmark : string;
  division : string;
  submitter : string;
  status : string;
  cache_clear_cmd : option (list string);
  root_folder : string;
  metric_name : string;
  metric_label : string;
  _file_handler : option nat;
  system_desc : dict;
  system_name : string;
  systems_path : string;
  filename : string;
  upload_name : string;
  system_desc_upload_name : string;
  success : bool;
}.

Definition set_file_handler (h : option nat) (s : Self) : Self :=
  {| target := target s; benchmark := benchmark s; division := division s;
     submitter := submitter s; status := status s;
     cache_clear_cmd := cache_clear_cmd s; root_folder := root_folder s;
     metric_name := metric_name s; metric_label := metric_label s;
     _file_handler := h;
     system_desc := system_desc s; system_name := system_name s;
     systems_path := systems_path s; filename := filename s;
     upload_name := upload_name s;
     system_desc_upload_name := system_desc_upload_name s;
     success := success s |}.

Definition set_success (b : bool) (s : Self) : Self :=
  {| target := target s; benchmark := benchmark s; division := division s;
     submitter := submitter s; status := status s;
     cache_clear_cmd := cache_clear_cmd s; root_folder := root_folder s;
     metric_name := metric_name s; metric_label := metric_label s;
     _file_handler := _file_handler s;
     system_desc := system_desc s; system_name := system_name s;
     systems_path := systems_path s; filename := filename s;
     upload_name := upload_name s;
     system_desc_upload_name := system_desc_upload_name s;
     success := b |}.

(** A hook runs on the object and the world together. *)
Record Machine := {
  self : Self;
  world : World;
}.

Definition lift {A} (c : M World A) : M Machine A :=
  fun m => let '(o, w) := c (world m) in (o, {| self := self m; world := w |}).

Definition assign (f : Self -> Self) : M Machine unit :=
  modify (fun m => {| self := f (self m); world := world m |}).

Section Methods.
Variable env : Env.

Definition __init__
    (root_folder : string) (index : Z) (benchmark : string) (target : float)
    (division metric_name metric_label submitter : string)
    (system_name : option string) (status : string)
    (cache_clear_cmd : option (list string))
  : M World Self :=
  require_mlperf_logging env;;
  (if negb (bool_decide (benchmark ∈ BENCHMARKS))
   then raise ValueError
          ("benchmark: " ++ benchmark ++ " must be one of ('resnet',)")
   else mret tt);;
  (if negb (bool_decide (division ∈ DIVISIONS))
   then raise ValueError
          ("division: " ++ division ++ " must be one of ('open',)")
   else mret tt);;
  (if negb (bool_decide (status ∈ STATUS))
   then raise ValueError
          ("status: " ++ status ++
           " must be one of ('onprem', 'cloud', 'preview')")
   else mret tt);;
  system_desc ← get_system_description env submitter division status system_name;
  system_name ←
    match system_name with
    | None => v ← getitem system_desc "system_name"; as_str v
    | Some system_name => mret system_name
    end;
  let result := "result_" ++ str_of_int index ++ ".txt" in
  mret {|
    target := target;
    benchmark := benchmark;
    division := division;
    submitter := submitter;
    status := status;
    cache_clear_cmd := cache_clear_cmd;
    root_folder := root_folder;
    metric_name := metric_name;
    metric_label := metric_label;
    _file_handler := None;
    system_desc := system_desc;
    system_name := system_name;
    systems_path :=
      os_path_join root_folder ["systems"; system_name ++ ".json"];
    filename :=
      os_path_join root_folder ["results"; system_name; benchmark; result];
    upload_name :=
      "{run_name}" ++ "/results/" ++ system_name ++ "/" ++ benchmark ++
      "/" ++ result;
    system_desc_upload_name :=
      "{run_name}" ++ "/systems/" ++ system_name ++ ".json";
    success := false;
  |}.

Definition _create_submission_folders
    (root_folder system_name benchmark : string) : M World unit :=
  os_makedirs env root_folder;;
  let results_folder := os_path_join root_folder ["results"] in
  let log_folder := os_path_join root_folder ["results"; system_name] in
  let benchmark_folder := os_path_join log_folder [benchmark] in
  let systems_folder := os_path_join root_folder ["systems"] in
  os_makedirs env results_folder;;
  os_makedirs env log_folder;;
  os_makedirs env benchmark_folder;;
  os_makedirs env systems_folder.

Definition _log_dict (data : list (mlkey * pyval)) : M World unit :=
  for_each data (fun '(key, value) => mllogger_event key value None).

Definition _get_accuracy (s : Self) (state : State) : M World float :=
  match current_metrics state !! metric_label s with
  | None => raise KeyError (metric_label s)
  | Some metrics =>
      match metrics !! metric_name s with
      | None => raise ValueError "Accuracy must be a validation metric."
      | Some accuracy => mret accuracy
      end
  end.

Definition init (state : State) : M Machine unit :=
  s ← gets self;
  (* setup here requires access to rank, which is only available after
     the trainer is initialized *)
  when (local_rank env =? 0)
    (lift (_create_submission_folders
             (root_folder s) (system_name s) (benchmark s));;
     lift (os_call env (WriteJson (systems_path s) (system_desc s))));;
  lift dist_barrier;;
  exists_ ← lift (os_path_exists_ env (filename s));
  (if exists_ : bool
   then raise FileExistsError (filename s ++ " already exists.")
   else mret tt);;
  h ← lift (logging_FileHandler env (filename s));
  assign (set_file_handler (Some h));;
  lift (handler_setLevel h logging_INFO);;
  lift (logger_addHandler h);;
  match cache_clear_cmd s with
  | Some cmd =>
      lift (subprocess_run env cmd);;
      lift (mllogger_start CACHE_CLEAR)
  | None =>
      lift (warn "cache_clear_cmd was not provided. For a valid submission, please provide the command.")
  end;;
  lift (mllogger_start INIT_START);;
  when (rank_zero env)
    (lift (_log_dict
       [ (SUBMISSION_BENCHMARK, VStr (benchmark s));
         (SUBMISSION_DIVISION, VStr (division s));
         (SUBMISSION_ORG, VStr (submitter s));
         (SUBMISSION_PLATFORM, VStr (system_name s));
         (SUBMISSION_STATUS, VStr (status s)) ]);;
     (* optionally, upload the system description file *)
     lift (logger_file_artifact (system_desc_upload_name s) (systems_path s))).

(** The checks of [fit_start], in the order of the source. An attribute
    of a dataloader is read only after the [isinstance] check on it. *)
Definition fit_start_checks (state : State) : M World (list (mlkey * pyval)) :=
  match train_dataloader state with
  | OtherIterable => raise TypeError "train dataloader must be a torch dataloader"
  | DataLoader batch_size train_dataset =>
  match evaluators state with
  | [] => raise IndexError "list index out of range"
  | evaluator0 :: _ =>
  match ev_dataloader evaluator0 with
  | OtherIterable => raise TypeError "eval dataset must be a torch dataloader."
  | DataLoader _ eval_dataset =>
  match batch_size with
  | None => raise ValueError "Batch size is required to be set for dataloader."
  | Some batch_size =>
  if (1 <? length (evaluators state))%nat
  then raise ValueError "Only one evaluator is supported for the MLPerfCallback."
  else
  match train_dataset with
  | UnsizedDataset => raise TypeError "Train dataset must have __len__ property"
  | SizedDataset train_len =>
  match eval_dataset with
  | UnsizedDataset => raise TypeError "The eval dataset must have __len__ property"
  | SizedDataset eval_len =>
      mret [ (SEED, VInt (seed state));
             (GLOBAL_BATCH_SIZE, VInt (batch_size * world_size env));
             (GRADIENT_ACCUMULATION_STEPS, VInt (grad_accum state));
             (TRAIN_SAMPLES, VInt train_len);
             (EVAL_SAMPLES, VInt eval_len) ]
  end end end end end end.

Definition fit_start (state : State) : M Machine unit :=
  when (rank_zero env)
    (data ← lift (fit_start_checks state);
     lift (_log_dict data));;
  lift (mllogger_event INIT_STOP VNone None);;
  lift dist_barrier;;
  when (rank_zero env)
    (lift (mllogger_event RUN_START VNone None)).

Definition epoch_start (state : State) : M Machine unit :=
  when (rank_zero env)
    (lift (mllogger_event EPOCH_START VNone
             (Some [("epoch_num", VInt (timer_epoch state))]));;
     lift (mllogger_event BLOCK_START VNone
             (Some [("first_epoch_num", VInt (timer_epoch state));
                    ("epoch_count", VInt 1)]))).

Definition epoch_end (state : State) : M Machine unit :=
  when (rank_zero env)
    (lift (mllogger_event EPOCH_STOP VNone
             (Some [("epoch_num", VInt (timer_epoch state))]));;
     s ← gets self;
     lift (logger_file_artifact (upload_name s) (filename s))).

Definition eval_start (state : State) : M Machine unit :=
  when (rank_zero env)
    (lift (mllogger_event EVAL_START VNone
             (Some [("epoch_num", VInt (timer_epoch state))]))).

Definition eval_end (state : State) : M Machine unit :=
  when (rank_zero env)
    (s ← gets self;
     accuracy ← lift (_get_accuracy s state);
     lift (mllogger_event EVAL_STOP VNone
             (Some [("epoch_num", VInt (timer_epoch state))]));;
     lift (mllogger_event EVAL_ACCURACY (VFloat accuracy)
             (Some [("epoch_num", VInt (timer_epoch state))]));;
     lift (mllogger_event BLOCK_STOP VNone
             (Some [("first_epoch_num", VInt (timer_epoch state))]));;
     s ← gets self;
     if (PrimFloat.ltb (target s) accuracy && negb (success s))%bool
     then
       lift (mllogger_event RUN_STOP VNone
               (Some [("status", VStr "success")]));;
       lift (logger_removeHandler (_file_handler s));;
       assign (set_success true)  (* only log once *)
     else mret tt).

Definition close (state : State) : M Machine unit :=
  s ← gets self;
  match _file_handler s with
  | Some h => lift (handler_close h)
  | None => mret tt
  end.
End Methods.
End MLPerfCallback.

Import MLPerfCallback.

(** * Notions used to state the properties *)

(** ** Relations between the state before and after a computation *)

(** A relation between the state before and after that every step of a
    computation respects, whether the computation returns or raises. *)
Definition stable {St : Type} (R : St -> St -> Prop) {A} (c : M St A) : Prop :=
  forall s, R s (c s).2.

(** A relation on the object alone, or on the world alone, as a relation
    on machines. *)
Definition on_self (RS : Self -> Self -> Prop) (m m' : Machine) : Prop :=
  RS (self m) (self m').

Definition on_world (RW : World -> World -> Prop) (m m' : Machine) : Prop :=
  RW (world m) (world m').

(** A list-valued component of the world that only grows, by elements
    satisfying [P]; and a component that stays as it is. *)
Definition grows {A} (f : World -> list A) (P : A -> Prop) (w w' : World) : Prop :=
  exists l, f w' = (f w ++ l)%list /\ Forall P l.

Definition keeps {A} (f : World -> A) (w w' : World) : Prop := f w' = f w.

(** The part of a growing component added between two worlds. *)
Definition added {A} (f : World -> list A) (w w' : World) : list A :=
  drop (length (f w)) (f w').

(** ** The generated system name *)

(** The device name that [get_system_description] puts into a generated
    system name. *)
Definition device_of (env : Env) : string :=
  if cuda_is_available env then cuda_device_name env
  else default "CPU" (cpu_brand_raw env).

Definition resolved_name (env : Env) (system_name : option string) : string :=
  match system_name with
  | Some name => name
  | None => str_of_int (world_size env) ++ "x" ++
            str_replace (device_of env) " " "_" ++ "_composer"
  end.

(** ** The hooks and the attributes they leave alone *)

(** The hooks the trainer calls. *)
Inductive hook :=
| Init | Fit_start | Epoch_start | Epoch_end | Eval_start | Eval_end | Close.

#[global] Instance hook_eq_dec : EqDecision hook.
Proof. solve_decision. Defined.

Definition call (env : Env) (h : hook) : State -> M Machine unit :=
  match h with
  | Init => init env
  | Fit_start => fit_start env
  | Epoch_start => epoch_start env
  | Epoch_end => epoch_end env
  | Eval_start => eval_start env
  | Eval_end => eval_end env
  | Close => close
  end.

(** Every attribute but [success] and [_file_handler] is the same in [a]
    and [b]. *)
Definition config_unchanged (a b : Self) : Prop :=
  target b = target a /\ benchmark b = benchmark a /\ division b = division a
  /\ submitter b = submitter a /\ status b = status a
  /\ cache_clear_cmd b = cache_clear_cmd a /\ root_folder b = root_folder a
  /\ metric_name b = metric_name a /\ metric_label b = metric_label a
  /\ system_name b = system_name a /\ systems_path b = systems_path a
  /\ filename b = filename a /\ upload_name b = upload_name a
  /\ system_desc_upload_name b = system_desc_upload_name a
  /\ system_desc b = system_desc a.

(** What a hook may change: nothing, nothing but [_file_handler], nothing
    but [success]. *)
Definition frame_all (a b : Self) : Prop := b = a.

Definition frame_but_handler (a b : Self) : Prop :=
  config_unchanged a b /\ success b = success a.

Definition frame_but_success (a b : Self) : Prop :=
  config_unchanged a b /\ _file_handler b = _file_handler a.

(** ** What a hook has logged, uploaded, closed *)

(** Log records and artifacts added between two machines. *)
Definition emitted (m m' : Machine) : list LogRecord :=
  added mllog_records (world m) (world m').

Definition uploaded (m m' : Machine) : list Artifact :=
  added artifacts (world m) (world m').

(** The keys of the records a hook has logged, in order. *)
Definition logged_keys (m m' : Machine) : list mlkey :=
  map lr_key (emitted m m').

(** A handler object after [close()]. *)
Definition closed_handler (o : FileHandler) : FileHandler :=
  {| fh_filename := fh_filename o; fh_level := fh_level o; fh_closed := true |}.

(** A record of [mllogger.start] with one of the [keys]. *)
Definition is_interval_start (keys : list mlkey) (r : LogRecord) : Prop :=
  lr_kind r = IntervalStart /\ lr_key r ∈ keys.

Definition INIT_STOP_event : LogRecord :=
  {| lr_kind := PointInTime; lr_key := INIT_STOP; lr_value := VNone;
     lr_metadata := None |}.

Definition INIT_START_interval : LogRecord :=
  {| lr_kind := IntervalStart; lr_key := INIT_START; lr_value := VNone;
     lr_metadata := None |}.

(** The sentence of the specification in parentheses: off global rank
    zero, the only record any hook logs is the INIT_STOP of [fit_start]. *)
Definition only_INIT_STOP_off_rank_zero : Prop :=
  forall (env : Env) (h : hook) (st : State) (m : Machine) (r : LogRecord),
    global_rank env <> 0 ->
    r ∈ emitted m (call env h st m).2 ->
    h = Fit_start /\ lr_key r = INIT_STOP.

(** ** The two halves of [init] *)

(** The statements of [init] that come before the existence check: the
    folders and the system description on local rank zero, then the
    barrier. *)
Definition before_check (env : Env) : M Machine unit :=
  s ← gets self;
  when (local_rank env =? 0)
    (lift (_create_submission_folders env
             (root_folder s) (system_name s) (benchmark s));;
     lift (os_call env (WriteJson (systems_path s) (system_desc s))));;
  lift dist_barrier.

(** The statements of [init] from the existence check on. *)
Definition after_barrier (env : Env) (s : Self) : M Machine unit :=
  exists_ ← lift (os_path_exists_ env (filename s));
  (if exists_ : bool
   then raise FileExistsError (filename s ++ " already exists.")
   else mret tt);;
  h ← lift (logging_FileHandler env (filename s));
  assign (set_file_handler (Some h));;
  lift (handler_setLevel h logging_INFO);;
  lift (logger_addHandler h);;
  match cache_clear_cmd s with
  | Some cmd =>
      lift (subprocess_run env cmd);;
      lift (mllogger_start CACHE_CLEAR)
  | None =>
      lift (warn "cache_clear_cmd was not provided. For a valid submission, please provide the command.")
  end;;
  lift (mllogger_start INIT_START);;
  when (rank_zero env)
    (lift (_log_dict
       [ (SUBMISSION_BENCHMARK, VStr (benchmark s));
         (SUBMISSION_DIVISION, VStr (division s));
         (SUBMISSION_ORG, VStr (submitter s));
         (SUBMISSION_PLATFORM, VStr (system_name s));
         (SUBMISSION_STATUS, VStr (status s)) ]);;
     lift (logger_file_artifact (system_desc_upload_name s) (systems_path s))).

(** The check itself, and what it leaves when the file exists. *)
Definition check_recorded (m : Machine) : Machine :=
  {| self := self m;
     world := set_calls (fun l => (l ++ [PathExists (filename (self m))])%list)
                (world m) |}.

(** ** Sequences of [eval_end] calls *)

(** The accuracy that [eval_end] fetches from the state, when it is there. *)
Definition fetched (s : Self) (st : State) : option float :=
  match current_metrics st !! metric_label s with
  | Some metrics => metrics !! metric_name s
  | None => None
  end.

(** The fetched accuracy strictly exceeds the target. *)
Definition exceeds_target (s : Self) (st : State) : bool :=
  match fetched s st with
  | Some accuracy => PrimFloat.ltb (target s) accuracy
  | None => false
  end.



Definition RUN_STOP_event : LogRecord :=
  {| lr_kind := PointInTime; lr_key := RUN_STOP; lr_value := VNone;
     lr_metadata := Some [("status", VStr "success")] |}.

(** The RUN_STOP records among those a call has logged. *)
Definition run_stops (m m' : Machine) : list LogRecord :=
  filter (fun r => lr_key r = RUN_STOP) (emitted m m').

(** [removeHandler(self._file_handler)]. *)
Definition detach (h : option nat) (l : list nat) : list nat :=
  match h with
  | Some h => remove_first h l
  | None => l
  end.

(** ** The conditions that [fit_start] checks *)

(** [isinstance(l, DataLoader)]. *)
Definition is_DataLoader (l : Loader) : bool :=
  match l with DataLoader _ _ => true | OtherIterable => false end.

(** [state.evaluators[0].dataloader.dataloader], when there is an evaluator. *)
Definition first_eval_loader (st : State) : option Loader :=
  ev_dataloader <$> head (evaluators st).

(** The six conditions, as the specification words them. *)
Definition train_not_DataLoader (st : State) : bool :=
  negb (is_DataLoader (train_dataloader st)).

Definition eval_not_DataLoader (st : State) : bool :=
  match first_eval_loader st with
  | Some l => negb (is_DataLoader l)
  | None => false
  end.

Definition batch_size_is_None (st : State) : bool :=
  match train_dataloader st with
  | DataLoader None _ => true
  | _ => false
  end.

Definition several_evaluators (st : State) : bool :=
  (1 <? length (evaluators st))%nat.

Definition train_not_Sized (st : State) : bool :=
  match train_dataloader st with
  | DataLoader _ UnsizedDataset => true
  | _ => false
  end.

Definition eval_not_Sized (st : State) : bool :=
  match first_eval_loader st with
  | Some (DataLoader _ UnsizedDataset) => true
  | _ => false
  end.

Definition no_evaluator (st : State) : bool :=
  match evaluators st with [] => true | _ => false end.

(** The exception of the first check that fails, in the order in which
    [fit_start] makes the checks; [None] when every check passes. *)
Definition first_failure (st : State) : option exn_class :=
  if train_not_DataLoader st then Some TypeError
  else if no_evaluator st then Some IndexError
  else if eval_not_DataLoader st then Some TypeError
  else if batch_size_is_None st then Some ValueError
  else if several_evaluators st then Some ValueError
  else if train_not_Sized st then Some TypeError
  else if eval_not_Sized st then Some TypeError
  else None.

Definition hyperparameter_keys : list mlkey :=
  [SEED; GLOBAL_BATCH_SIZE; GRADIENT_ACCUMULATION_STEPS; TRAIN_SAMPLES;
   EVAL_SAMPLES].

(** ** The calls of [init] to the file system *)

(** The calls of [_create_submission_folders], and the call that writes
    the system description. *)
Definition folder_calls (s : Self) : list ext_call :=
  [ MakeDirs (root_folder s);
    MakeDirs (os_path_join (root_folder s) ["results"]);
    MakeDirs (os_path_join (root_folder s) ["results"; system_name s]);
    MakeDirs (os_path_join (root_folder s)
                ["results"; system_name s; benchmark s]);
    MakeDirs (os_path_join (root_folder s) ["systems"]) ].

Definition write_call (s : Self) : ext_call :=
  WriteJson (systems_path s) (system_desc s).




(** ** Sample surroundings, used to run the definitions *)

Module Sample.
(** A file system that answers from the calls it has seen and refuses
    nothing. *)
Definition created (tr : list ext_call) (p : string) : bool :=
  existsb (fun c =>
    match c with
    | MakeDirs q | WriteJson q _ | OpenAppend q => String.eqb p q
    | _ => false
    end) tr.

Definition env (rank : Z) (cuda : bool) : Env :=
  {| mlperf_available := true;
     global_rank := rank;
     local_rank := rank;
     world_size := 8;
     local_world_size := 8;
     cuda_is_available := cuda;
     cuda_device_name := "NVIDIA A100 80GB";
     cuda_version := "11.3";
     cpu_brand_raw := Some "AMD EPYC 7742 64-Core Processor";
     cpu_count_physical := Some 64;
     torch_version := "1.11.0";
     composer_version := "0.7.0";
     python_version := "3.9.12";
     platform_system := "Linux";
     platform_release := "5.4.0";
     os_error := fun _ _ => None;
     os_path_exists := created |}.

Definition empty_world : World :=
  {| mllog_records := []; mllogger_handlers := []; handler_objects := [];
     calls := []; artifacts := []; warnings := [] |}.
End Sample.

(** A constructed callback on a fresh world, and a trainer state, to run
    the hooks on. *)
Module Run.
Definition constructed (system_name : option string) : outcome Self * World :=
  __init__ (Sample.env 0 true) "/submission" 0 "resnet" 0.759%float "open"
    "Accuracy" "eval" "MosaicML" system_name "onprem" None Sample.empty_world.

Definition blank : Self :=
  {| target := 0%float; benchmark := ""; division := ""; submitter := "";
     status := ""; cache_clear_cmd := None; root_folder := "";
     metric_name := ""; metric_label := ""; _file_handler := None;
     system_desc := []; system_name := ""; systems_path := "";
     filename := ""; upload_name := ""; system_desc_upload_name := "";
     success := false |}.

(** The machine right after [MLPerfCallback(root_folder='/submission',
    index=0)]. *)
Definition fresh : Machine :=
  {| self := match (constructed None).1 with
             | Returns s => s
             | Raises _ => blank
             end;
     world := (constructed None).2 |}.

Definition loader (n : Z) : Loader := DataLoader (Some 32) (SizedDataset n).

(** A trainer state at [epoch] whose 'eval' metrics are [metrics]. *)
Definition state (epoch : Z) (metrics : gmap string float) : State :=
  {| train_dataloader := loader 1281167;
     evaluators := [ {| ev_dataloader := loader 50000 |} ];
     seed := 17;
     grad_accum := 1;
     timer_epoch := epoch;
     current_metrics := {[ "eval" := metrics ]} |}.

Definition accuracy (a : float) : gmap string float := {[ "Accuracy" := a ]}.
End Run.

(** The machine after a first [init], which has created the results
    file. *)
Definition initialised : Machine :=
  (init (Sample.env 0 true) (Run.state 0 ∅) Run.fresh).2.




(** A train dataloader without a batch size over a dataset without
    [__len__], and one well-formed evaluator. *)
Definition unsized_unbatched : State :=
  {| train_dataloader := DataLoader None UnsizedDataset;
     evaluators := [ {| ev_dataloader := Run.loader 50000 |} ];
     seed := 17; grad_accum := 1; timer_epoch := 0;
     current_metrics := ∅ |}.

(** ** Further notions: the constructor *)

(** [c in s]. *)
Fixpoint has_char (s : string) (c : ascii) : bool :=
  match s with
  | EmptyString => false
  | String a rest => (Ascii.eqb a c || has_char rest c)%bool
  end.

(** The one warning of [get_system_description]. *)
Definition nodes_warning : string :=
  "Number of nodes > 1 not tested, proceed with caution.".

(** Surroundings in which the import of the MLPerf packages has failed. *)
Definition without_mlperf : Env :=
  {| mlperf_available := false;
     global_rank := 0;
     local_rank := 0;
     world_size := 8;
     local_world_size := 8;
     cuda_is_available := false;
     cuda_device_name := "";
     cuda_version := "";
     cpu_brand_raw := None;
     cpu_count_physical := None;
     torch_version := "1.11.0";
     composer_version := "0.7.0";
     python_version := "3.9.12";
     platform_system := "Linux";
     platform_release := "5.4.0";
     os_error := fun _ _ => None;
     os_path_exists := Sample.created |}.

(** ** Further notions: what [init] leaves behind *)

(** An operating system that refuses no call. *)
Definition os_refuses_nothing (env : Env) : Prop :=
  forall tr c, os_error env tr c = None.

(** The handler object of the results file, once its level is set. *)
Definition results_handler (s : Self) : FileHandler :=
  {| fh_filename := filename s; fh_level := logging_INFO; fh_closed := false |}.

Definition CACHE_CLEAR_interval : LogRecord :=
  {| lr_kind := IntervalStart; lr_key := CACHE_CLEAR; lr_value := VNone;
     lr_metadata := None |}.

Definition event (key : mlkey) (value : pyval) : LogRecord :=
  {| lr_kind := PointInTime; lr_key := key; lr_value := value;
     lr_metadata := None |}.

(** The submission metadata, from the attributes of the object. *)
Definition submission_records (s : Self) : list LogRecord :=
  [ event SUBMISSION_BENCHMARK (VStr (benchmark s));
    event SUBMISSION_DIVISION (VStr (division s));
    event SUBMISSION_ORG (VStr (submitter s));
    event SUBMISSION_PLATFORM (VStr (system_name s));
    event SUBMISSION_STATUS (VStr (status s)) ].

(** The records of an [init] that returns. *)
Definition init_records (env : Env) (s : Self) : list LogRecord :=
  (match cache_clear_cmd s with
   | Some _ => [CACHE_CLEAR_interval]
   | None => []
   end ++ [INIT_START_interval] ++
   (if rank_zero env then submission_records s else []))%list.

(** The calls of an [init] that returns. *)
Definition init_trace (env : Env) (s : Self) : list ext_call :=
  ((if local_rank env =? 0 then folder_calls s ++ [write_call s] else []) ++
   [Barrier; PathExists (filename s); OpenAppend (filename s)] ++
   match cache_clear_cmd s with
   | Some cmd => [RunCommand cmd]
   | None => []
   end)%list.

(** [Logger.addHandler(h)] on the list of handlers. *)
Definition attach (h : nat) (l : list nat) : list nat :=
  if bool_decide (h ∈ l) then l else (l ++ [h])%list.

Definition cache_clear_warning : string :=
  "cache_clear_cmd was not provided. For a valid submission, please provide the command.".

(** The machine in which the second half of [init] ends when it has
    attached the results handler in machine [m1]: [records], [uploads] and
    [warned] are what it has logged, uploaded and warned since, and [trace]
    the calls it has made. *)
Definition with_results_handler (s : Self) (m1 : Machine)
    (records : list LogRecord) (trace : list ext_call)
    (uploads : list Artifact) (warned : list string) : Machine :=
  let h := length (handler_objects (world m1)) in
  {| self := set_file_handler (Some h) (self m1);
     world :=
       {| mllog_records := (mllog_records (world m1) ++ records)%list;
          mllogger_handlers := attach h (mllogger_handlers (world m1));
          handler_objects :=
            (handler_objects (world m1) ++ [results_handler s])%list;
          calls := (calls (world m1) ++ trace)%list;
          artifacts := (artifacts (world m1) ++ uploads)%list;
          warnings := (warnings (world m1) ++ warned)%list |} |}.

(** What the second half of [init] has uploaded and warned when it
    returns. *)
Definition init_uploads (env : Env) (s : Self) : list Artifact :=
  if rank_zero env
  then [ {| artifact_name := system_desc_upload_name s;
            file_path := systems_path s |} ]
  else [].

Definition init_warned (s : Self) : list string :=
  match cache_clear_cmd s with
  | Some _ => []
  | None => [cache_clear_warning]
  end.

(** The calls of the second half of [init], up to the opening of the
    results file, and with the cache clear command. *)
Definition open_trace (s : Self) : list ext_call :=
  [PathExists (filename s); OpenAppend (filename s)].

Definition command_trace (s : Self) : list ext_call :=
  match cache_clear_cmd s with
  | Some cmd => [RunCommand cmd]
  | None => []
  end.

(** Surroundings in which every subprocess fails, and a callback
    constructed with a cache clear command. *)
Definition subprocess_fails : Env :=
  {| mlperf_available := true;
     global_rank := 0;
     local_rank := 0;
     world_size := 8;
     local_world_size := 8;
     cuda_is_available := true;
     cuda_device_name := "NVIDIA A100 80GB";
     cuda_version := "11.3";
     cpu_brand_raw := Some "AMD EPYC 7742 64-Core Processor";
     cpu_count_physical := Some 64;
     torch_version := "1.11.0";
     composer_version := "0.7.0";
     python_version := "3.9.12";
     platform_system := "Linux";
     platform_release := "5.4.0";
     os_error := fun _ c =>
       match c with
       | RunCommand _ =>
           Some (Exn CalledProcessError "returned non-zero exit status 1")
       | _ => None
       end;
     os_path_exists := Sample.created |}.

Definition fresh_with_command : Machine :=
  let r := __init__ subprocess_fails "/submission" 0 "resnet" 0.759%float
             "open" "Accuracy" "eval" "MosaicML" None "onprem"
             (Some ["sync"]) Sample.empty_world in
  {| self := match r.1 with Returns s => s | Raises _ => Run.blank end;
     world := r.2 |}.

(** ** Further notions: the records of the hooks *)

Definition epoch_num (st : State) : option dict :=
  Some [("epoch_num", VInt (timer_epoch st))].

(** The three records of every [eval_end] that has fetched [accuracy]. *)
Definition eval_records (st : State) (accuracy : float) : list LogRecord :=
  [ {| lr_kind := PointInTime; lr_key := EVAL_STOP; lr_value := VNone;
       lr_metadata := epoch_num st |};
    {| lr_kind := PointInTime; lr_key := EVAL_ACCURACY;
       lr_value := VFloat accuracy; lr_metadata := epoch_num st |};
    {| lr_kind := PointInTime; lr_key := BLOCK_STOP; lr_value := VNone;
       lr_metadata := Some [("first_epoch_num", VInt (timer_epoch st))] |} ].

(** The machine after some more records. *)
Definition logging (records : list LogRecord) (m : Machine) : Machine :=
  {| self := self m;
     world := set_records (fun l => (l ++ records)%list) (world m) |}.

(** [eval_end] has to log RUN_STOP: the accuracy exceeds the target and
    [success] is still False. *)
Definition run_stop_due (s : Self) (st : State) : bool :=
  (exceeds_target s st && negb (success s))%bool.

(** The machine after an [eval_end] that logs RUN_STOP. *)
Definition stopped (st : State) (accuracy : float) (m : Machine) : Machine :=
  {| self := set_success true (self m);
     world := set_handlers (detach (_file_handler (self m)))
                (set_records
                   (fun l => (l ++ eval_records st accuracy ++ [RUN_STOP_event])%list)
                   (world m)) |}.

(** ** Further notions: sequences of hooks *)

(** The machine after a sequence of hook calls, each with the trainer
    state it is given. A hook that raises leaves the machine it has reached
    to the next one. *)
Fixpoint run_hooks (env : Env) (hs : list (hook * State)) (m : Machine)
  : Machine :=
  match hs with
  | [] => m
  | (h, st) :: rest => run_hooks env rest (call env h st m).2
  end.

Definition not_RUN_STOP (r : LogRecord) : Prop := lr_key r <> RUN_STOP.

(** How many RUN_STOP records there are between a machine whose
    [success] is [before] and a later one whose [success] is [after]. *)
Definition stops_between (before after : bool) : nat :=
  if before then 0%nat else if after then 1%nat else 0%nat.

(** The hooks of one epoch with one evaluation, in the order in which the
    trainer calls them. *)
Definition epoch_hooks (st : State) : list (hook * State) :=
  [(Epoch_start, st); (Eval_start, st); (Eval_end, st); (Epoch_end, st)].

(** The records of [_log_dict(data)]. *)
Definition dict_records (data : list (mlkey * pyval)) : list LogRecord :=
  map (fun kv => event kv.1 kv.2) data.

(** The machine after a [fit_start] on global rank zero whose checks have
    passed and produced [data]. *)
Definition fit_started (data : list (mlkey * pyval)) (m : Machine) : Machine :=
  {| self := self m;
     world := set_calls (fun l => (l ++ [Barrier])%list)
                (set_records
                   (fun l => (l ++ dict_records data ++
                              [INIT_STOP_event; event RUN_START VNone])%list)
                   (world m)) |}.

(** The records of [epoch_start], of [eval_start] and of [epoch_end]. *)
Definition epoch_start_records (st : State) : list LogRecord :=
  [ {| lr_kind := PointInTime; lr_key := EPOCH_START; lr_value := VNone;
       lr_metadata := epoch_num st |};
    {| lr_kind := PointInTime; lr_key := BLOCK_START; lr_value := VNone;
       lr_metadata := Some [("first_epoch_num", VInt (timer_epoch st));
                            ("epoch_count", VInt 1)] |} ].

Definition eval_start_record (st : State) : LogRecord :=
  {| lr_kind := PointInTime; lr_key := EVAL_START; lr_value := VNone;
     lr_metadata := epoch_num st |}.

Definition epoch_stop_record (st : State) : LogRecord :=
  {| lr_kind := PointInTime; lr_key := EPOCH_STOP; lr_value := VNone;
     lr_metadata := epoch_num st |}.

(** The upload of the results file by [epoch_end]. *)
Definition results_upload (s : Self) : Artifact :=
  {| artifact_name := upload_name s; file_path := filename s |}.

(** The keys that the hooks of one epoch log, in order. *)
Definition epoch_keys (stop : bool) : list mlkey :=
  ([EPOCH_START; BLOCK_START; EVAL_START; EVAL_STOP; EVAL_ACCURACY; BLOCK_STOP]
   ++ (if stop then [RUN_STOP] else []) ++ [EPOCH_STOP])%list.

Definition point_in_time (r : LogRecord) : Prop := lr_kind r = PointInTime.

(** The hyperparameters that [fit_start] logs for a train dataloader of
    batch size [b] over [n] samples and an eval dataset of [k] samples. *)
Definition hyperparameters (env : Env) (st : State) (b n k : Z)
  : list (mlkey * pyval) :=
  [ (SEED, VInt (seed st));
    (GLOBAL_BATCH_SIZE, VInt (b * world_size env));
    (GRADIENT_ACCUMULATION_STEPS, VInt (grad_accum st));
    (TRAIN_SAMPLES, VInt n);
    (EVAL_SAMPLES, VInt k) ].

(** ** Further notions: a refused call in the setup of [init] *)

(** The calls of [init] on local rank zero before the barrier. *)
Definition setup_calls (s : Self) : list ext_call :=
  (folder_calls s ++ [write_call s])%list.

(** The operating system refuses none of the calls [cs], made in this
    order after the calls [tr]. *)
Definition unrefused (env : Env) (tr cs : list ext_call) : Prop :=
  forall (j : nat) (c : ext_call),
    cs !! j = Some c -> os_error env (tr ++ take j cs)%list c = None.

(** Surroundings in which nothing can be created below the results
    folder. *)
Definition results_read_only : Env :=
  {| mlperf_available := true;
     global_rank := 0;
     local_rank := 0;
     world_size := 8;
     local_world_size := 8;
     cuda_is_available := true;
     cuda_device_name := "NVIDIA A100 80GB";
     cuda_version := "11.3";
     cpu_brand_raw := Some "AMD EPYC 7742 64-Core Processor";
     cpu_count_physical := Some 64;
     torch_version := "1.11.0";
     composer_version := "0.7.0";
     python_version := "3.9.12";
     platform_system := "Linux";
     platform_release := "5.4.0";
     os_error := fun _ c =>
       match c with
       | MakeDirs p =>
           if startswith p "/submission/results/"
           then Some (Exn OSError "Permission denied")
           else None
       | _ => None
       end;
     os_path_exists := Sample.created |}.

(** A sequence of hook calls without [init]. *)
Definition after_init (hs : list (hook * State)) : Prop :=
  Forall (fun p => p.1 <> Init) hs.

(** * Lemmas and theorems *)

(** ** Reasoning about computations *)

Ltac unfold_monad :=
  unfold mbind, M_bind, mret, M_ret, raise, gets, modify, when, lift, assign in *.

(** The rules for [stable], for a relation that is reflexive and
    transitive. *)
Section Stable.
Context {St : Type} (R : St -> St -> Prop).
Context `{!Reflexive R, !Transitive R}.

Lemma stable_ret {A} (a : A) : stable R (mret a).
Proof. intros s. unfold_monad. simpl. reflexivity. Qed.

Lemma stable_raise {A} c msg : stable R (raise (A := A) c msg).
Proof. intros s. unfold_monad. simpl. reflexivity. Qed.

Lemma stable_gets {A} (f : St -> A) : stable R (gets f).
Proof. intros s. unfold_monad. simpl. reflexivity. Qed.

Lemma stable_modify (f : St -> St) : (forall s, R s (f s)) -> stable R (modify f).
Proof. intros H s. unfold_monad. simpl. apply H. Qed.

Lemma stable_bind {A B} (c : M St A) (f : A -> M St B) :
  stable R c -> (forall a, stable R (f a)) -> stable R (c ≫= f).
Proof.
  intros Hc Hf s. unfold mbind, M_bind.
  specialize (Hc s). destruct (c s) as [[a|e] s1]; simpl in *.
  - etransitivity; [exact Hc | apply Hf].
  - exact Hc.
Qed.

Lemma stable_when (b : bool) (c : M St unit) : stable R c -> stable R (when b c).
Proof. intros Hc. destruct b; simpl; [exact Hc | apply stable_ret]. Qed.

Lemma stable_for_each {A} (l : list A) (body : A -> M St unit) :
  (forall x, stable R (body x)) -> stable R (for_each l body).
Proof.
  intros Hb. induction l as [|x l IH]; simpl.
  - apply stable_ret.
  - apply stable_bind; [apply Hb | intros _; exact IH].
Qed.
End Stable.

(** The monad laws that the proofs use, at a given state. *)
Lemma gets_bind {St A B} (f : St -> A) (k : A -> M St B) (s : St) :
  (gets f ≫= k) s = k (f s) s.
Proof. reflexivity. Qed.

Lemma bind_assoc_at {St A B C}
    (c : M St A) (f : A -> M St B) (g : B -> M St C) (s : St) :
  (c ≫= fun a => f a ≫= g) s = ((c ≫= f) ≫= g) s.
Proof. unfold mbind, M_bind. destruct (c s) as [[a|e] s1]; reflexivity. Qed.

Lemma bind_returns {St A B} (c : M St A) (k : A -> M St B) (s s' : St) (a : A) :
  c s = (Returns a, s') -> (c ≫= k) s = k a s'.
Proof. intros E. unfold mbind, M_bind. rewrite E. reflexivity. Qed.

Lemma bind_raises {St A B} (c : M St A) (k : A -> M St B) (s s' : St) (e : exn) :
  c s = (Raises e, s') -> (c ≫= k) s = (Raises e, s').
Proof. intros E. unfold mbind, M_bind. rewrite E. reflexivity. Qed.

#[global] Instance on_self_refl RS `{!Reflexive RS} : Reflexive (on_self RS).
Proof. intros m. unfold on_self. reflexivity. Qed.

#[global] Instance on_self_trans RS `{!Transitive RS} : Transitive (on_self RS).
Proof. intros a b c. unfold on_self. apply transitivity. Qed.

#[global] Instance on_world_refl RW `{!Reflexive RW} : Reflexive (on_world RW).
Proof. intros m. unfold on_world. reflexivity. Qed.

#[global] Instance on_world_trans RW `{!Transitive RW} : Transitive (on_world RW).
Proof. intros a b c. unfold on_world. apply transitivity. Qed.

Lemma stable_lift_self RS `{!Reflexive RS} {A} (c : M World A) :
  stable (on_self RS) (lift c).
Proof.
  intros m. unfold lift, on_self. destruct (c (world m)) as [o w]. simpl.
  reflexivity.
Qed.

Lemma stable_assign_self (RS : Self -> Self -> Prop) (f : Self -> Self) :
  (forall s, RS s (f s)) -> stable (on_self RS) (assign f).
Proof. intros H m. unfold assign, modify, on_self. simpl. apply H. Qed.

Lemma stable_lift_world RW {A} (c : M World A) :
  stable RW c -> stable (on_world RW) (lift c).
Proof.
  intros H m. unfold lift, on_world. specialize (H (world m)).
  destruct (c (world m)) as [o w]. exact H.
Qed.

Lemma stable_assign_world RW `{!Reflexive RW} (f : Self -> Self) :
  stable (on_world RW) (assign f).
Proof. intros m. unfold assign, modify, on_world. simpl. reflexivity. Qed.

#[global] Instance grows_refl {A} (f : World -> list A) P : Reflexive (grows f P).
Proof. intros w. exists []. split; [symmetry; apply app_nil_r | constructor]. Qed.

#[global] Instance grows_trans {A} (f : World -> list A) P : Transitive (grows f P).
Proof.
  intros a b c (l1 & E1 & F1) (l2 & E2 & F2). exists (l1 ++ l2)%list. split.
  - rewrite E2, E1. symmetry. apply app_assoc.
  - apply Forall_app; split; assumption.
Qed.

#[global] Instance keeps_refl {A} (f : World -> A) : Reflexive (keeps f).
Proof. intros w. reflexivity. Qed.

#[global] Instance keeps_trans {A} (f : World -> A) : Transitive (keeps f).
Proof. intros a b c E1 E2. unfold keeps in *. congruence. Qed.

Lemma grows_nil {A} (f : World -> list A) P (w w' : World) :
  f w' = f w -> grows f P w w'.
Proof. intros E. exists []. split; [rewrite E; symmetry; apply app_nil_r | constructor]. Qed.

Lemma grows_one {A} (f : World -> list A) (P : A -> Prop) (w w' : World) x :
  f w' = (f w ++ [x])%list -> P x -> grows f P w w'.
Proof. intros E Hx. exists [x]. split; [exact E | repeat constructor; exact Hx]. Qed.

Lemma grows_added {A} (f : World -> list A) P (w w' : World) :
  grows f P w w' -> f w' = (f w ++ added f w w')%list /\ Forall P (added f w w').
Proof.
  intros (l & E & F). unfold added. rewrite E, drop_app_length. split; auto.
Qed.

(** ** Strings *)

Lemma append_cons (a : ascii) (s t : string) :
  String a s ++ t = String a (s ++ t).
Proof. reflexivity. Qed.

Lemma append_assoc (s1 s2 s3 : string) : (s1 ++ s2) ++ s3 = s1 ++ (s2 ++ s3).
Proof.
  induction s1 as [|a s1 IH]; [reflexivity |].
  rewrite !append_cons. f_equal. exact IH.
Qed.

(** [str.replace] keeps the length and changes exactly the characters equal
    to [old]. *)
Lemma str_replace_get (s : string) (old new : ascii) (i : nat) :
  String.get i (str_replace s old new) =
  match String.get i s with
  | Some a => Some (if Ascii.eqb a old then new else a)
  | None => None
  end.
Proof.
  revert i. induction s as [|a s IH]; intros i; simpl; [reflexivity |].
  destruct i as [|i]; [reflexivity | apply IH].
Qed.

Lemma str_replace_length (s : string) (old new : ascii) :
  String.length (str_replace s old new) = String.length s.
Proof. induction s as [|a s IH]; simpl; [reflexivity | f_equal; exact IH]. Qed.

(** ** [get_system_description] *)

(** The two ways [get_system_description] can end. *)
Lemma get_system_description_cases
    (env : Env) (submitter division status : string)
    (system_name : option string) (w : World) :
  (local_world_size env = 0 /\
   get_system_description env submitter division status system_name w
     = (Raises (Exn ZeroDivisionError "division by zero"), w))
  \/
  (local_world_size env <> 0 /\
   exists (d : dict) (w' : World),
     get_system_description env submitter division status system_name w
       = (Returns d, w')
     /\ dict_get d "submitter" = Some (VStr submitter)
     /\ dict_get d "division" = Some (VStr division)
     /\ dict_get d "status" = Some (VStr status)
     /\ dict_get d (if cuda_is_available env then "accelerator_model_name"
                    else "host_processor_model_name")
          = Some (VStr (device_of env))
     /\ dict_get d "system_name" = Some (VStr (resolved_name env system_name))
     /\ mllog_records w' = mllog_records w
     /\ calls w' = calls w).
Proof.
  unfold get_system_description, true_div.
  destruct (local_world_size env =? 0) eqn:Hlws.
  - left. apply Z.eqb_eq in Hlws. split; [exact Hlws | reflexivity].
  - right. apply Z.eqb_neq in Hlws. split; [exact Hlws |].
    unfold_monad. unfold getitem, as_str, warn, resolved_name, device_of.
    unfold_monad. simpl.
    destruct (negb _); destruct system_name as [name|];
      destruct (cuda_is_available env); simpl;
      do 2 eexists; repeat split; reflexivity.
Qed.

(** C6. Unless the local world size is zero (the division then raises),
    [get_system_description] returns a dictionary whose 'submitter',
    'division' and 'status' entries are the arguments and which has a
    'system_name' entry; a system name that is given is returned as it is,
    and without one the entry is "[world_size]x[device_name]_composer",
    where the device name is the dictionary's accelerator model name (the
    CUDA device name) when CUDA is available and its host processor model
    name (the CPU brand, "CPU" when unknown) otherwise, with every space
    replaced by an underscore. *)
Theorem get_system_description_entries
    (env : Env) (submitter division status : string)
    (system_name : option string) (w : World) :
  local_world_size env <> 0 ->
  exists (d : dict) (w' : World) (device : string),
    get_system_description env submitter division status system_name w
      = (Returns d, w')
    /\ dict_get d "submitter" = Some (VStr submitter)
    /\ dict_get d "division" = Some (VStr division)
    /\ dict_get d "status" = Some (VStr status)
    /\ dict_has d "system_name" = true
    /\ dict_get d (if cuda_is_available env then "accelerator_model_name"
                   else "host_processor_model_name") = Some (VStr device)
    /\ device = (if cuda_is_available env then cuda_device_name env
                 else default "CPU" (cpu_brand_raw env))
    /\ dict_get d "system_name" = Some (VStr
         match system_name with
         | Some name => name
         | None => str_of_int (world_size env) ++ "x" ++
                   str_replace device " " "_" ++ "_composer"
         end)
    /\ (forall i : nat,
          String.get i (str_replace device " " "_") =
          match String.get i device with
          | Some a => Some (if Ascii.eqb a " " then "_"%char else a)
          | None => None
          end).
Proof.
  intros Hlws.
  destruct (get_system_description_cases env submitter division status
              system_name w)
    as [[Hz _] | (_ & d & w' & Hrun & Hs & Hd & Hst & Hdev & Hname & _)];
    [contradiction |].
  exists d, w', (device_of env).
  repeat split; try assumption.
  - unfold dict_has. now rewrite Hname.
  - intros i. apply str_replace_get.
Qed.

Lemma get_system_description_entries_witness :
  exists (d : dict) (w' : World),
    get_system_description (Sample.env 0 true) "MosaicML" "open" "onprem" None
      Sample.empty_world = (Returns d, w')
    /\ dict_get d "submitter" = Some (VStr "MosaicML")
    /\ dict_get d "division" = Some (VStr "open")
    /\ dict_get d "status" = Some (VStr "onprem")
    /\ dict_get d "accelerator_model_name" = Some (VStr "NVIDIA A100 80GB")
    /\ dict_get d "system_name" = Some (VStr "8xNVIDIA_A100_80GB_composer").
Proof.
  destruct (get_system_description_entries (Sample.env 0 true)
              "MosaicML" "open" "onprem" None Sample.empty_world)
    as (d & w' & device & Hrun & Hs & Hd & Hst & _ & Hdev & -> & Hname & _).
  - simpl. lia.
  - exists d, w'. repeat split; assumption.
Defined.

(** ** The constructor *)

Lemma in_BENCHMARKS (b : string) : b ∈ BENCHMARKS <-> b = "resnet".
Proof. unfold BENCHMARKS. set_solver. Qed.

Lemma in_DIVISIONS (d : string) : d ∈ DIVISIONS <-> d = "open".
Proof. unfold DIVISIONS. set_solver. Qed.

Lemma in_STATUS (s : string) :
  s ∈ STATUS <-> s = "onprem" \/ s = "cloud" \/ s = "preview".
Proof. unfold STATUS. set_solver. Qed.

(** The constructor, once its three checks have passed. *)
Lemma constructor_accepts
    (env : Env) (root_folder : string) (index : Z) (target : float)
    (metric_name metric_label submitter : string)
    (system_name : option string) (status : string)
    (cache_clear_cmd : option (list string)) (w : World) :
  mlperf_available env = true ->
  status ∈ STATUS ->
  let run := __init__ env root_folder index "resnet" target "open" metric_name
               metric_label submitter system_name status cache_clear_cmd w in
  (local_world_size env = 0 /\ raised run.1 = Some ZeroDivisionError)
  \/
  (local_world_size env <> 0 /\
   exists (d : dict) (w' : World),
     get_system_description env submitter "open" status system_name w
       = (Returns d, w') /\
     let name := resolved_name env system_name in
     let result := "result_" ++ str_of_int index ++ ".txt" in
     run = (Returns {|
        target := target; benchmark := "resnet"; division := "open";
        submitter := submitter; status := status;
        cache_clear_cmd := cache_clear_cmd; root_folder := root_folder;
        metric_name := metric_name; metric_label := metric_label;
        _file_handler := None; system_desc := d; system_name := name;
        systems_path := os_path_join root_folder ["systems"; name ++ ".json"];
        filename := os_path_join root_folder ["results"; name; "resnet"; result];
        upload_name := "{run_name}" ++ "/results/" ++ name ++ "/" ++ "resnet" ++
                       "/" ++ result;
        system_desc_upload_name :=
          "{run_name}" ++ "/systems/" ++ name ++ ".json";
        success := false |}, w')).
Proof.
  intros Hav Hst run. subst run.
  unfold __init__, require_mlperf_logging. rewrite Hav.
  rewrite (bool_decide_eq_true_2 _ Hst).
  rewrite (bool_decide_eq_true_2 ("resnet" ∈ BENCHMARKS))
    by (apply in_BENCHMARKS; reflexivity).
  rewrite (bool_decide_eq_true_2 ("open" ∈ DIVISIONS))
    by (apply in_DIVISIONS; reflexivity).
  unfold_monad. simpl.
  destruct (get_system_description_cases env submitter "open" status
              system_name w)
    as [[Hz Hrun] | (Hnz & d & w' & Hrun & _ & _ & _ & _ & Hname & _)];
    rewrite Hrun.
  - left. split; [exact Hz | reflexivity].
  - right. split; [exact Hnz |]. exists d, w'. split; [reflexivity |].
    destruct system_name as [name|]; simpl.
    + reflexivity.
    + unfold getitem, as_str. rewrite Hname. reflexivity.
Qed.

(** C8. With the MLPerf logging packages installed, the constructor raises
    ValueError exactly when benchmark is not 'resnet', or division is not
    'open', or status is none of 'onprem', 'cloud' and 'preview'; with these
    three accepted it returns the object whatever the other arguments are
    (provided the runtime reports a local world size other than zero, by
    which [get_system_description] divides). *)
Theorem constructor_ValueError_iff
    (env : Env) (root_folder : string) (index : Z) (benchmark : string)
    (target : float) (division metric_name metric_label submitter : string)
    (system_name : option string) (status : string)
    (cache_clear_cmd : option (list string)) (w : World) :
  mlperf_available env = true ->
  let run := __init__ env root_folder index benchmark target division
               metric_name metric_label submitter system_name status
               cache_clear_cmd w in
  let rejected :=
    benchmark <> "resnet" \/ division <> "open" \/
    ~ (status = "onprem" \/ status = "cloud" \/ status = "preview") in
  (raised run.1 = Some ValueError <-> rejected)
  /\ (local_world_size env <> 0 -> ~ rejected ->
      exists s : Self, exists w' : World, run = (Returns s, w')).
Proof.
  intros Hav run rejected.
  destruct (decide (benchmark ∈ BENCHMARKS)) as [Hb|Hb].
  2:{ assert (Hrej : rejected) by (left; intros ->; apply Hb, in_BENCHMARKS; reflexivity).
      assert (Hrun : raised run.1 = Some ValueError).
      { subst run. unfold __init__, require_mlperf_logging. rewrite Hav.
        rewrite (bool_decide_eq_false_2 _ Hb). reflexivity. }
      split; [split; auto | intros _ Hn; contradiction]. }
  destruct (decide (division ∈ DIVISIONS)) as [Hd|Hd].
  2:{ assert (Hrej : rejected)
        by (right; left; intros ->; apply Hd, in_DIVISIONS; reflexivity).
      assert (Hrun : raised run.1 = Some ValueError).
      { subst run. unfold __init__, require_mlperf_logging. rewrite Hav.
        rewrite (bool_decide_eq_true_2 _ Hb), (bool_decide_eq_false_2 _ Hd).
        reflexivity. }
      split; [split; auto | intros _ Hn; contradiction]. }
  destruct (decide (status ∈ STATUS)) as [Hs|Hs].
  2:{ assert (Hrej : rejected)
        by (right; right; intros Hin; apply Hs, in_STATUS; exact Hin).
      assert (Hrun : raised run.1 = Some ValueError).
      { subst run. unfold __init__, require_mlperf_logging. rewrite Hav.
        rewrite (bool_decide_eq_true_2 _ Hb), (bool_decide_eq_true_2 _ Hd),
          (bool_decide_eq_false_2 _ Hs).
        reflexivity. }
      split; [split; auto | intros _ Hn; contradiction]. }
  assert (Hok : ~ rejected).
  { apply in_BENCHMARKS in Hb. apply in_DIVISIONS in Hd.
    pose proof (proj1 (in_STATUS status) Hs) as Hs'.
    intros [H | [H | H]]; contradiction. }
  apply in_BENCHMARKS in Hb. apply in_DIVISIONS in Hd. subst benchmark division.
  destruct (constructor_accepts env root_folder index target metric_name
              metric_label submitter system_name status cache_clear_cmd w
              Hav Hs)
    as [[Hz Hrun] | (Hnz & d & w' & _ & Hrun)]; fold run in Hrun.
  - split.
    + split; [intros H; rewrite Hrun in H; discriminate | intros; contradiction].
    + intros Hnz; contradiction.
  - simpl in Hrun. split.
    + split; [intros H; rewrite Hrun in H; discriminate | intros; contradiction].
    + intros _ _. eexists. exists w'. exact Hrun.
Qed.

Lemma constructor_ValueError_iff_witness :
  (raised (__init__ (Sample.env 0 true) "/submission" 0 "bert" 0.759%float
             "open" "Accuracy" "eval" "MosaicML" None "onprem" None
             Sample.empty_world).1 = Some ValueError)
  /\ exists (s : Self) (w' : World),
       __init__ (Sample.env 0 true) "/submission" 0 "resnet" 0.759%float
         "open" "Accuracy" "eval" "MosaicML" None "cloud" None
         Sample.empty_world = (Returns s, w').
Proof.
  split.
  - apply (constructor_ValueError_iff (Sample.env 0 true) "/submission" 0
             "bert" 0.759%float "open" "Accuracy" "eval" "MosaicML" None
             "onprem" None Sample.empty_world); [reflexivity |].
    left. discriminate.
  - apply (constructor_ValueError_iff (Sample.env 0 true) "/submission" 0
             "resnet" 0.759%float "open" "Accuracy" "eval" "MosaicML" None
             "cloud" None Sample.empty_world); [reflexivity | simpl; lia |].
    intros [H | [H | H]]; [apply H; reflexivity .. |].
    apply H. right. left. reflexivity.
Defined.

(** ** The hooks and the object *)

Ltac frame_solve :=
  unfold frame_all, frame_but_handler, frame_but_success, config_unchanged in *;
  intuition congruence.

#[global] Instance frame_all_refl : Reflexive frame_all.
Proof. intros a. frame_solve. Qed.

#[global] Instance frame_all_trans : Transitive frame_all.
Proof. intros a b c ? ?. frame_solve. Qed.

#[global] Instance frame_but_handler_refl : Reflexive frame_but_handler.
Proof. intros a. frame_solve. Qed.

#[global] Instance frame_but_handler_trans : Transitive frame_but_handler.
Proof. intros a b c ? ?. frame_solve. Qed.

#[global] Instance frame_but_success_refl : Reflexive frame_but_success.
Proof. intros a. frame_solve. Qed.

#[global] Instance frame_but_success_trans : Transitive frame_but_success.
Proof. intros a b c ? ?. frame_solve. Qed.

Ltac stable_step :=
  lazymatch goal with
  | |- stable _ (mbind _ _) => apply stable_bind; [typeclasses eauto | | intros ?]
  | |- stable _ (mret _) => apply stable_ret; typeclasses eauto
  | |- stable _ (raise _ _) => apply stable_raise; typeclasses eauto
  | |- stable _ (gets _) => apply stable_gets; typeclasses eauto
  | |- stable _ (when _ _) => apply stable_when; [typeclasses eauto |]
  | |- stable _ (for_each _ _) =>
      apply stable_for_each; [typeclasses eauto .. | intros ?]
  | |- stable (on_self _) (lift _) => apply stable_lift_self; typeclasses eauto
  | |- stable (on_world _) (lift _) => apply stable_lift_world
  | |- stable (on_world _) (assign _) =>
      apply stable_assign_world; typeclasses eauto
  | |- stable _ (match ?x with _ => _ end) => destruct x
  end.

Lemma init_frame env st : stable (on_self frame_but_handler) (init env st).
Proof.
  unfold init. repeat stable_step.
  all: apply stable_assign_self; intros s; frame_solve.
Qed.

Lemma eval_end_frame env st : stable (on_self frame_but_success) (eval_end env st).
Proof.
  unfold eval_end. repeat stable_step.
  all: apply stable_assign_self; intros s; frame_solve.
Qed.

Lemma other_hooks_frame env h st :
  h <> Init -> h <> Eval_end -> stable (on_self frame_all) (call env h st).
Proof.
  intros Hi He. destruct h; try contradiction; simpl;
    unfold fit_start, epoch_start, epoch_end, eval_start, close;
    repeat stable_step.
Qed.

(** C7. Whatever hook runs, in whatever state and surroundings, and
    whether it returns or raises, the attributes target, benchmark,
    division, submitter, status, cache_clear_cmd, root_folder, metric_name,
    metric_label, system_name, the two file paths, the two upload names and
    system_desc are left as they were; success is changed by no hook but
    eval_end, and _file_handler by no hook but init. *)
Theorem hooks_mutate_only_success_and_handler
    (env : Env) (h : hook) (st : State) (m : Machine) :
  let s := self m in
  let s' := self (call env h st m).2 in
  config_unchanged s s'
  /\ (h <> Eval_end -> success s' = success s)
  /\ (h <> Init -> _file_handler s' = _file_handler s).
Proof.
  destruct (decide (h = Init)) as [->|Hi];
    [| destruct (decide (h = Eval_end)) as [->|He]].
  - pose proof (init_frame env st m) as H. unfold on_self in H. simpl.
    split; [apply H | split; [intros _; apply H | intros Hn; contradiction]].
  - pose proof (eval_end_frame env st m) as H. unfold on_self in H. simpl.
    split; [apply H | split; [intros Hn; contradiction | intros _; apply H]].
  - pose proof (other_hooks_frame env h st Hi He m) as H.
    unfold on_self, frame_all in H. simpl. rewrite H.
    split; [frame_solve | split; reflexivity].
Qed.

(** ** [close] *)

(** C10. [close] always returns. Without a file handler (init never ran)
    it leaves the object and the world exactly as they were; with a file
    handler it marks that handler object closed and touches no other
    handler object. In both cases it emits no log record, uploads nothing,
    attaches or detaches no handler, and changes no attribute. *)
Theorem close_is_safe (st : State) (m : Machine) :
  let m' := (close st m).2 in
  (close st m).1 = Returns tt
  /\ self m' = self m
  /\ mllog_records (world m') = mllog_records (world m)
  /\ mllogger_handlers (world m') = mllogger_handlers (world m)
  /\ artifacts (world m') = artifacts (world m)
  /\ calls (world m') = calls (world m)
  /\ warnings (world m') = warnings (world m)
  /\ (_file_handler (self m) = None -> m' = m)
  /\ (forall (h : nat) (o : FileHandler),
        _file_handler (self m) = Some h ->
        handler_objects (world m) !! h = Some o ->
        handler_objects (world m') !! h = Some (closed_handler o)
        /\ forall j : nat, j <> h ->
             handler_objects (world m') !! j = handler_objects (world m) !! j).
Proof.
  destruct m as [s w]. unfold close. unfold_monad. simpl.
  destruct (_file_handler s) as [h|] eqn:Hh; simpl.
  - unfold handler_close. unfold_monad. simpl.
    repeat apply conj; try reflexivity; try discriminate.
    intros h' o Heq Ho. injection Heq as <-. rewrite Ho. split.
    + apply list_lookup_insert_eq. eapply lookup_lt_Some. exact Ho.
    + intros j Hj. apply list_lookup_insert_ne. congruence.
  - repeat apply conj; try reflexivity; intros; discriminate.
Qed.

(** ** [eval_end] without the metric *)

(** C9. On global rank zero, when the metrics under [metric_label] do not
    contain [metric_name], [eval_end] raises ValueError and leaves the
    object and the world exactly as they were: no EVAL_STOP, EVAL_ACCURACY,
    BLOCK_STOP or RUN_STOP record is logged and success is unchanged. *)
Theorem eval_end_missing_metric
    (env : Env) (st : State) (m : Machine) (metrics : gmap string float) :
  global_rank env = 0 ->
  current_metrics st !! metric_label (self m) = Some metrics ->
  metrics !! metric_name (self m) = None ->
  eval_end env st m
    = (Raises (Exn ValueError "Accuracy must be a validation metric."), m)
  /\ emitted m (eval_end env st m).2 = []
  /\ success (self (eval_end env st m).2) = success (self m).
Proof.
  intros Hrank Hlabel Hname.
  assert (E : eval_end env st m
    = (Raises (Exn ValueError "Accuracy must be a validation metric."), m)).
  { unfold eval_end, rank_zero, _get_accuracy. rewrite Hrank.
    unfold_monad. simpl. rewrite Hlabel, Hname. simpl.
    destruct m; reflexivity. }
  rewrite E. simpl. repeat split.
  unfold emitted, added. apply drop_all.
Qed.

Lemma eval_end_missing_metric_witness :
  eval_end (Sample.env 0 true) (Run.state 1 {[ "Loss" := 0.5%float ]}) Run.fresh
    = (Raises (Exn ValueError "Accuracy must be a validation metric."),
       Run.fresh).
Proof.
  apply (eval_end_missing_metric (Sample.env 0 true)
           (Run.state 1 {[ "Loss" := 0.5%float ]}) Run.fresh
           {[ "Loss" := 0.5%float ]}).
  - reflexivity.
  - vm_compute. reflexivity.
  - vm_compute. reflexivity.
Defined.

(** ** What the hooks do to the world *)

Ltac unfold_prims :=
  unfold _create_submission_folders, _log_dict, os_makedirs, subprocess_run,
    logging_FileHandler, mllogger_start, mllogger_event, warn, dist_barrier,
    handler_setLevel, handler_close, logger_addHandler, logger_removeHandler,
    logger_file_artifact in *.

Ltac grows_solve :=
  first [ reflexivity
        | apply grows_nil; reflexivity
        | eapply grows_one; [reflexivity | simpl] ].

(** One step through a hook for a relation on the world; what is left are
    the conditions on the elements that the hook appends. *)
Ltac world_step :=
  lazymatch goal with
  | |- stable _ (when false _) => apply stable_ret; typeclasses eauto
  | |- stable _ (modify _) =>
      apply stable_modify; intros ?; simpl; grows_solve
  | |- stable _ (os_call _ _) =>
      let w := fresh "w" in
      intros w; unfold os_call; destruct (os_error _ _ _); simpl; grows_solve
  | |- stable _ (os_path_exists_ _ _) =>
      intros ?; unfold os_path_exists_; simpl; grows_solve
  | _ => stable_step
  end.

(** Off global rank zero, [init] logs nothing but the starts of the
    CACHE_CLEAR and INIT_START intervals. *)
Lemma init_records_off_rank_zero env st :
  rank_zero env = false ->
  stable (on_world (grows mllog_records
                      (is_interval_start [CACHE_CLEAR; INIT_START])))
    (init env st).
Proof.
  intros Hrank. unfold init. rewrite Hrank. unfold_prims.
  repeat world_step; split; try reflexivity; set_solver.
Qed.

Lemma init_artifacts_off_rank_zero env st :
  rank_zero env = false ->
  stable (on_world (keeps artifacts)) (init env st).
Proof.
  intros Hrank. unfold init. rewrite Hrank. unfold_prims.
  repeat world_step.
Qed.

(** C4, as stated, fails: on global rank one, [init] logs the start of the
    INIT_START interval. *)
Lemma init_logs_INIT_START_on_rank_one :
  global_rank (Sample.env 1 true) <> 0
  /\ emitted Run.fresh (init (Sample.env 1 true) (Run.state 0 ∅) Run.fresh).2
       = [INIT_START_interval]
  /\ ~ only_INIT_STOP_off_rank_zero.
Proof.
  assert (E : emitted Run.fresh
                (init (Sample.env 1 true) (Run.state 0 ∅) Run.fresh).2
              = [INIT_START_interval]) by (vm_compute; reflexivity).
  split; [simpl; lia | split; [exact E |]].
  intros H.
  destruct (H (Sample.env 1 true) Init (Run.state 0 ∅) Run.fresh
              INIT_START_interval) as [Hh _].
  - discriminate.
  - simpl call. rewrite E. apply list_elem_of_here.
  - discriminate.
Qed.

(** Off global rank zero: the four epoch and evaluation hooks, [init] and
    [fit_start]. *)
Lemma quiet_off_rank_zero (env : Env) (st : State) (m : Machine) :
  global_rank env <> 0 ->
  (forall h : hook,
     h ∈ [Epoch_start; Epoch_end; Eval_start; Eval_end] ->
     call env h st m = (Returns tt, m)
     /\ emitted m (call env h st m).2 = []
     /\ uploaded m (call env h st m).2 = [])
  /\ (Forall (is_interval_start [CACHE_CLEAR; INIT_START])
        (emitted m (init env st m).2)
      /\ uploaded m (init env st m).2 = [])
  /\ ((fit_start env st m).1 = Returns tt
      /\ emitted m (fit_start env st m).2 = [INIT_STOP_event]
      /\ uploaded m (fit_start env st m).2 = []).
Proof.
  intros Hrank.
  assert (Hz : rank_zero env = false) by (apply Z.eqb_neq; exact Hrank).
  split; [| split].
  - intros h Hh.
    assert (E : call env h st m = (Returns tt, m)).
    { assert (Hcases : h = Epoch_start \/ h = Epoch_end \/ h = Eval_start
                       \/ h = Eval_end) by set_solver.
      destruct Hcases as [-> | [-> | [-> | ->]]]; simpl;
        unfold epoch_start, epoch_end, eval_start, eval_end; rewrite Hz;
        reflexivity. }
    rewrite E. simpl. unfold emitted, uploaded, added.
    rewrite !drop_all. auto.
  - split.
    + apply (grows_added mllog_records _ _ _
               (init_records_off_rank_zero env st Hz m)).
    + pose proof (init_artifacts_off_rank_zero env st Hz m) as H.
      unfold on_world, keeps in H. unfold uploaded, added. rewrite H.
      apply drop_all.
  - unfold fit_start. rewrite Hz. unfold_prims. unfold_monad.
    destruct m as [s w]. simpl. unfold emitted, uploaded, added. simpl.
    rewrite drop_app_length, drop_all. auto.
Qed.

(** ** [init] and a results file that exists *)

Lemma before_check_self env : stable (on_self frame_all) (before_check env).
Proof. unfold before_check. repeat stable_step. Qed.

Lemma before_check_keeps env :
  stable (on_world (keeps mllogger_handlers)) (before_check env)
  /\ stable (on_world (keeps handler_objects)) (before_check env)
  /\ stable (on_world (keeps mllog_records)) (before_check env)
  /\ stable (on_world (keeps artifacts)) (before_check env).
Proof.
  repeat apply conj; unfold before_check; unfold_prims; repeat world_step.
Qed.

(** [init] raises as soon as the check finds the file. *)
Lemma init_file_exists env st m m1 :
  before_check env m = (Returns tt, m1) ->
  os_path_exists env (calls (world m1)) (filename (self m)) = true ->
  init env st m
    = (Raises (Exn FileExistsError (filename (self m) ++ " already exists.")),
       check_recorded m1).
Proof.
  intros Hsetup Hexists.
  pose proof (before_check_self env m) as Hself.
  rewrite Hsetup in Hself. unfold on_self, frame_all in Hself. simpl in Hself.
  unfold before_check in Hsetup. rewrite gets_bind in Hsetup.
  unfold init. rewrite gets_bind, bind_assoc_at.
  rewrite (bind_returns _ _ _ _ _ Hsetup).
  unfold mbind at 1, M_bind at 1.
  unfold lift at 1, os_path_exists_. rewrite Hexists.
  unfold mbind at 1, M_bind at 1. unfold raise at 1.
  unfold check_recorded. rewrite Hself. reflexivity.
Qed.

(** C3. When the part of [init] before the check has run (folders and
    barrier) and [os.path.exists] then finds [self.filename], [init] raises
    FileExistsError; on that branch no attribute has changed (so
    [_file_handler] is not set), no handler is attached to the logger and no
    handler object is created, no record at all is logged (neither
    CACHE_CLEAR nor INIT_START nor the submission metadata), and nothing is
    uploaded. *)
Theorem init_raises_FileExistsError
    (env : Env) (st : State) (m m1 : Machine) :
  before_check env m = (Returns tt, m1) ->
  os_path_exists env (calls (world m1)) (filename (self m)) = true ->
  let m' := (init env st m).2 in
  raised (init env st m).1 = Some FileExistsError
  /\ self m' = self m
  /\ mllogger_handlers (world m') = mllogger_handlers (world m)
  /\ handler_objects (world m') = handler_objects (world m)
  /\ emitted m m' = []
  /\ uploaded m m' = [].
Proof.
  intros Hsetup Hexists.
  rewrite (init_file_exists env st m m1 Hsetup Hexists). simpl.
  pose proof (before_check_self env m) as Hself.
  destruct (before_check_keeps env) as (Hh & Ho & Hr & Ha).
  specialize (Hh m). specialize (Ho m). specialize (Hr m). specialize (Ha m).
  rewrite Hsetup in Hself, Hh, Ho, Hr, Ha.
  unfold on_self, frame_all, on_world, keeps in *. simpl in *.
  unfold emitted, uploaded, added. simpl. rewrite Hr, Ha, !drop_all.
  repeat apply conj; auto.
Qed.

Lemma init_raises_FileExistsError_witness :
  raised (init (Sample.env 0 true) (Run.state 0 ∅) initialised).1
    = Some FileExistsError
  /\ self (init (Sample.env 0 true) (Run.state 0 ∅) initialised).2
     = self initialised.
Proof.
  assert (H1 : before_check (Sample.env 0 true) initialised
               = (Returns tt, (before_check (Sample.env 0 true) initialised).2))
    by (vm_compute; reflexivity).
  assert (H2 : os_path_exists (Sample.env 0 true)
                 (calls (world (before_check (Sample.env 0 true) initialised).2))
                 (filename (self initialised)) = true)
    by (vm_compute; reflexivity).
  destruct (init_raises_FileExistsError (Sample.env 0 true) (Run.state 0 ∅)
              initialised _ H1 H2) as (Hraise & Hself & _).
  split; [exact Hraise | exact Hself].
Defined.

(** ** [eval_end] and the target *)



(** One call of [eval_end] on global rank zero. *)
Lemma eval_end_step (env : Env) (st : State) (m : Machine) :
  rank_zero env = true ->
  let m' := (eval_end env st m).2 in
  let due := (exceeds_target (self m) st && negb (success (self m)))%bool in
  success (self m') = (success (self m) || exceeds_target (self m) st)%bool
  /\ run_stops m m' = (if due then [RUN_STOP_event] else [])
  /\ mllogger_handlers (world m')
       = (if due then detach (_file_handler (self m)) (mllogger_handlers (world m))
          else mllogger_handlers (world m)).
Proof.
  intros Hz. destruct m as [s w].
  unfold eval_end, _get_accuracy, exceeds_target, fetched, run_stops, emitted,
    added.
  rewrite Hz. unfold_prims. unfold_monad. simpl.
  destruct (current_metrics st !! metric_label s) as [metrics|]; simpl.
  2:{ rewrite drop_all, orb_false_r. auto. }
  destruct (metrics !! metric_name s) as [accuracy|]; simpl.
  2:{ rewrite drop_all, orb_false_r. auto. }
  destruct (PrimFloat.ltb (target s) accuracy); destruct (success s) eqn:Hs;
    destruct (_file_handler s);
    simpl; rewrite ?Hs; simpl;
    rewrite <- ?app_assoc; simpl; rewrite drop_app_length;
    repeat apply conj; reflexivity.
Qed.





(** ** The checks of [fit_start] *)

(** The checks change nothing, and their outcome is [first_failure]. *)
Lemma fit_start_checks_outcome (env : Env) (st : State) (w : World) :
  (fit_start_checks env st w).2 = w
  /\ raised (fit_start_checks env st w).1 = first_failure st
  /\ forall data, (fit_start_checks env st w).1 = Returns data ->
       map fst data = hyperparameter_keys.
Proof.
  unfold fit_start_checks, first_failure, train_not_DataLoader, no_evaluator,
    eval_not_DataLoader, batch_size_is_None, several_evaluators,
    train_not_Sized, eval_not_Sized, first_eval_loader.
  destruct st as [train evs sd ga ep cm]. simpl.
  destruct train as [[bs|] [n|]|]; simpl;
    try (repeat apply conj; [reflexivity .. | intros ? [=]; fail]);
    destruct evs as [|[[[b|] [k|]|]] [|ev2 rest]]; simpl;
    repeat apply conj; try reflexivity;
    try (intros ? [=]; subst; reflexivity).
Qed.

(** What [fit_start] does on global rank zero, by the first check that
    fails. *)
Lemma fit_start_outcome (env : Env) (st : State) (m : Machine) :
  global_rank env = 0 ->
  let m' := (fit_start env st m).2 in
  raised (fit_start env st m).1 = first_failure st
  /\ (first_failure st <> None -> m' = m)
  /\ (first_failure st = None ->
      logged_keys m m' = (hyperparameter_keys ++ [INIT_STOP; RUN_START])%list)
  /\ (forall k, k ∈ hyperparameter_keys -> k ∈ logged_keys m m' ->
      train_not_DataLoader st = false /\ eval_not_DataLoader st = false
      /\ batch_size_is_None st = false /\ several_evaluators st = false
      /\ train_not_Sized st = false /\ eval_not_Sized st = false).
Proof.
  intros Hrank.
  assert (Hz : rank_zero env = true) by (apply Z.eqb_eq; exact Hrank).
  destruct (fit_start_checks_outcome env st (world m)) as (Hw & Hr & Hdata).
  assert (Hfail : first_failure st <> None -> fit_start env st m
            = ((fit_start env st m).1, m)
              /\ raised (fit_start env st m).1 = first_failure st).
  { intros Hne. unfold fit_start. rewrite Hz. unfold_monad. simpl.
    destruct (fit_start_checks env st (world m)) as [[data|e] w'] eqn:E;
      simpl in *; [congruence |].
    subst w'. destruct m; simpl. split; [reflexivity | exact Hr]. }
  assert (Hpass : first_failure st = None ->
            raised (fit_start env st m).1 = None
            /\ logged_keys m (fit_start env st m).2
               = (hyperparameter_keys ++ [INIT_STOP; RUN_START])%list).
  { intros Hnone. unfold fit_start, logged_keys, emitted, added.
    rewrite Hz. unfold_monad. simpl.
    destruct (fit_start_checks env st (world m)) as [[data|e] w'] eqn:E;
      simpl in *; [| congruence].
    subst w'. specialize (Hdata data eq_refl).
    destruct data as [|[k1 v1] [|[k2 v2] [|[k3 v3] [|[k4 v4] [|[k5 v5] [|? ?]]]]]];
      try discriminate.
    injection Hdata as -> -> -> -> ->.
    unfold_prims. unfold_monad. simpl.
    rewrite <- !app_assoc. simpl. rewrite drop_app_length.
    split; reflexivity. }
  destruct (first_failure st) as [c|] eqn:Hff.
  - destruct (Hfail ltac:(discriminate)) as [Hrun Hraised].
    assert (Hm' : (fit_start env st m).2 = m) by (rewrite Hrun; reflexivity).
    simpl. rewrite Hm'.
    repeat apply conj; [exact Hraised | reflexivity | discriminate |].
    intros k _ Hk. unfold logged_keys, emitted, added in Hk.
    rewrite drop_all in Hk. simpl in Hk. inversion Hk.
  - destruct (Hpass eq_refl) as [Hraised Hkeys].
    simpl. repeat apply conj; [exact Hraised | congruence | intros _; exact Hkeys |].
    intros k _ _. clear -Hff. unfold first_failure in Hff.
    destruct (train_not_DataLoader st); [discriminate |].
    destruct (no_evaluator st); [discriminate |].
    destruct (eval_not_DataLoader st); [discriminate |].
    destruct (batch_size_is_None st); [discriminate |].
    destruct (several_evaluators st); [discriminate |].
    destruct (train_not_Sized st); [discriminate |].
    destruct (eval_not_Sized st); [discriminate |].
    repeat split.
Qed.

(** C2. On global rank zero [fit_start] makes its checks one after the
    other and raises at the first that fails: TypeError when the train
    dataloader is not a torch DataLoader, then TypeError when the first
    evaluator's dataloader is not one, then ValueError when the train
    dataloader's batch size is None, then ValueError when there is more than
    one evaluator, then TypeError when the train dataset is not Sized, then
    TypeError when the eval dataset is not Sized. A failing check leaves
    everything as it was, so nothing is logged; the hyperparameter events
    SEED, GLOBAL_BATCH_SIZE, GRADIENT_ACCUMULATION_STEPS, TRAIN_SAMPLES and
    EVAL_SAMPLES are logged only when every check passes, and then all
    five, followed by INIT_STOP and RUN_START. (Without any evaluator,
    reading [evaluators[0]] for the second check raises IndexError.) *)
Theorem fit_start_first_failure (env : Env) (st : State) (m : Machine) :
  global_rank env = 0 ->
  let m' := (fit_start env st m).2 in
  raised (fit_start env st m).1 = first_failure st
  /\ (first_failure st <> None -> m' = m)
  /\ (first_failure st = None ->
      logged_keys m m' = (hyperparameter_keys ++ [INIT_STOP; RUN_START])%list)
  /\ (forall k, k ∈ hyperparameter_keys -> k ∈ logged_keys m m' ->
      train_not_DataLoader st = false /\ eval_not_DataLoader st = false
      /\ batch_size_is_None st = false /\ several_evaluators st = false
      /\ train_not_Sized st = false /\ eval_not_Sized st = false)
  /\ (evaluators st <> [] ->
      (train_not_DataLoader st = true ->
       raised (fit_start env st m).1 = Some TypeError)
      /\ (train_not_DataLoader st = false ->
          eval_not_DataLoader st = true ->
          raised (fit_start env st m).1 = Some TypeError)
      /\ (train_not_DataLoader st = false ->
          eval_not_DataLoader st = false ->
          batch_size_is_None st = true ->
          raised (fit_start env st m).1 = Some ValueError)
      /\ (train_not_DataLoader st = false ->
          eval_not_DataLoader st = false ->
          batch_size_is_None st = false ->
          several_evaluators st = true ->
          raised (fit_start env st m).1 = Some ValueError)
      /\ (train_not_DataLoader st = false ->
          eval_not_DataLoader st = false ->
          batch_size_is_None st = false ->
          several_evaluators st = false ->
          train_not_Sized st = true ->
          raised (fit_start env st m).1 = Some TypeError)
      /\ (train_not_DataLoader st = false ->
          eval_not_DataLoader st = false ->
          batch_size_is_None st = false ->
          several_evaluators st = false ->
          train_not_Sized st = false ->
          eval_not_Sized st = true ->
          raised (fit_start env st m).1 = Some TypeError)
      /\ (train_not_DataLoader st = false ->
          eval_not_DataLoader st = false ->
          batch_size_is_None st = false ->
          several_evaluators st = false ->
          train_not_Sized st = false ->
          eval_not_Sized st = false ->
          (fit_start env st m).1 = Returns tt)).
Proof.
  intros Hrank.
  destruct (fit_start_outcome env st m Hrank) as (Hr & Hsame & Hkeys & Honly).
  simpl in *.
  apply conj; [exact Hr |]. apply conj; [exact Hsame |].
  apply conj; [exact Hkeys |]. apply conj; [exact Honly |].
  intros Hevs.
  assert (Hne : no_evaluator st = false)
    by (unfold no_evaluator; destruct (evaluators st); congruence).
  rewrite Hr. unfold first_failure. rewrite Hne.
  repeat apply conj.
  1-6: intros;
    repeat match goal with
    | H : ?f ?x = _ |- context [?f ?x] => rewrite H
    end; reflexivity.
  intros H1 H2 H3 H4 H5 H6.
  assert (Hnone : first_failure st = None)
    by (unfold first_failure; rewrite H1, Hne, H2, H3, H4, H5, H6;
        reflexivity).
  rewrite Hnone in Hr.
  destruct (fit_start env st m).1 as [[]|e]; [reflexivity | discriminate].
Qed.

Lemma fit_start_first_failure_witness :
  raised (fit_start (Sample.env 0 true) unsized_unbatched Run.fresh).1
    = Some ValueError
  /\ (fit_start (Sample.env 0 true) unsized_unbatched Run.fresh).2 = Run.fresh
  /\ logged_keys Run.fresh
       (fit_start (Sample.env 0 true) (Run.state 0 ∅) Run.fresh).2
     = [SEED; GLOBAL_BATCH_SIZE; GRADIENT_ACCUMULATION_STEPS; TRAIN_SAMPLES;
        EVAL_SAMPLES; INIT_STOP; RUN_START]
  /\ (fit_start (Sample.env 0 true) (Run.state 0 ∅) Run.fresh).1 = Returns tt.
Proof.
  assert (Hrank : global_rank (Sample.env 0 true) = 0) by reflexivity.
  assert (Hev1 : evaluators unsized_unbatched <> []) by discriminate.
  assert (Hev2 : evaluators (Run.state 0 ∅) <> []) by discriminate.
  assert (Hff : first_failure unsized_unbatched <> None) by discriminate.
  destruct (fit_start_first_failure (Sample.env 0 true) unsized_unbatched
              Run.fresh Hrank) as (_ & Hsame & _ & _ & Hchecks).
  destruct (Hchecks Hev1) as (_ & _ & Hbatch & _).
  destruct (fit_start_first_failure (Sample.env 0 true) (Run.state 0 ∅)
              Run.fresh Hrank) as (_ & _ & Hkeys & _ & Hchecks').
  destruct (Hchecks' Hev2) as (_ & _ & _ & _ & _ & _ & Hpass).
  split; [exact (Hbatch eq_refl eq_refl eq_refl) |].
  split; [exact (Hsame Hff) |].
  split; [exact (Hkeys eq_refl) |].
  exact (Hpass eq_refl eq_refl eq_refl eq_refl eq_refl eq_refl).
Defined.

(** ** The submission folders *)

Lemma append_not_empty (a b : string) : b <> "" -> a ++ b <> "".
Proof.
  intros Hb. destruct a as [|c a]; [exact Hb | rewrite append_cons; discriminate].
Qed.

Lemma endswith_char_append (a b : string) (c : ascii) :
  b <> "" -> endswith_char (a ++ b) c = endswith_char b c.
Proof.
  intros Hb. induction a as [|x a IH]; [reflexivity |].
  rewrite append_cons. simpl.
  destruct (a ++ b) eqn:E; [| exact IH].
  exfalso. apply (append_not_empty a b Hb). exact E.
Qed.

Lemma startswith_append (a b : string) :
  a <> "" -> startswith (a ++ b) "/" = startswith a "/".
Proof.
  intros Ha. destruct a as [|x a]; [contradiction |].
  rewrite append_cons. reflexivity.
Qed.

(** [os.path.join] puts one separator between a path that does not end
    with one and a component that does not start with one. *)
Lemma join_step_plain (path b : string) :
  path <> "" -> endswith_char path sep = false -> startswith b "/" = false ->
  join_step path b = path ++ "/" ++ b.
Proof.
  intros Hp He Hb. unfold join_step. rewrite Hb, He.
  destruct path; [contradiction | reflexivity].
Qed.

(** [init] is [before_check] followed by [after_barrier]. *)
Lemma init_split (env : Env) (st : State) (m : Machine) :
  init env st m = (before_check env ≫= fun _ => after_barrier env (self m)) m.
Proof.
  unfold init, before_check.
  rewrite <- (bind_assoc_at (gets self)).
  rewrite !gets_bind.
  rewrite <- (bind_assoc_at (when _ _)).
  reflexivity.
Qed.








(** What a constructor call that returns has been given and has built. *)
Lemma constructor_returns
    (env : Env) (root : string) (index : Z) (bench : string)
    (tgt : float) (div metric_name metric_label submitter : string)
    (name : option string) (stat : string)
    (cmd : option (list string)) (w w' : World) (s : Self) :
  __init__ env root index bench tgt div metric_name metric_label submitter
    name stat cmd w = (Returns s, w') ->
  bench = "resnet" /\ div = "open"
  /\ root_folder s = root /\ benchmark s = bench
  /\ system_name s = resolved_name env name
  /\ systems_path s = os_path_join root ["systems"; system_name s ++ ".json"]
  /\ filename s = os_path_join root
       ["results"; system_name s; bench;
        "result_" ++ str_of_int index ++ ".txt"].
Proof.
  intros Hrun.
  destruct (mlperf_available env) eqn:Hav.
  2:{ unfold __init__, require_mlperf_logging in Hrun. rewrite Hav in Hrun.
      discriminate. }
  destruct (decide (bench ∈ BENCHMARKS)) as [Hb|Hb].
  2:{ unfold __init__, require_mlperf_logging in Hrun. rewrite Hav in Hrun.
      rewrite (bool_decide_eq_false_2 _ Hb) in Hrun. discriminate. }
  destruct (decide (div ∈ DIVISIONS)) as [Hd|Hd].
  2:{ unfold __init__, require_mlperf_logging in Hrun. rewrite Hav in Hrun.
      rewrite (bool_decide_eq_true_2 _ Hb), (bool_decide_eq_false_2 _ Hd)
        in Hrun. discriminate. }
  destruct (decide (stat ∈ STATUS)) as [Hs|Hs].
  2:{ unfold __init__, require_mlperf_logging in Hrun. rewrite Hav in Hrun.
      rewrite (bool_decide_eq_true_2 _ Hb), (bool_decide_eq_true_2 _ Hd),
        (bool_decide_eq_false_2 _ Hs) in Hrun. discriminate. }
  apply in_BENCHMARKS in Hb. apply in_DIVISIONS in Hd. subst bench div.
  destruct (constructor_accepts env root index tgt metric_name metric_label
              submitter name stat cmd w Hav Hs)
    as [[_ Hr] | (_ & d & w1 & _ & Hr)]; simpl in Hr; rewrite Hrun in Hr.
  - discriminate.
  - injection Hr as -> _. simpl. repeat apply conj; reflexivity.
Qed.

(** One more component on a path, written out. *)
Lemma join_step_literal (path b : string) :
  path <> "" -> endswith_char path sep = false ->
  b <> "" -> startswith b "/" = false ->
  join_step path b = path ++ "/" ++ b
  /\ path ++ "/" ++ b <> ""
  /\ endswith_char (path ++ "/" ++ b) sep = endswith_char b sep.
Proof.
  intros Hp He Hb Hs. split; [apply join_step_plain; assumption |].
  assert (Hne : "/" ++ b <> "") by discriminate.
  split; [apply append_not_empty; exact Hne |].
  rewrite (endswith_char_append path _ sep Hne).
  apply (endswith_char_append "/" b sep Hb).
Qed.

(** The layout of the specification, read as text: a separator between
    the root folder and each component. *)
Lemma literal_paths (root name result : string) :
  root <> "" -> endswith_char root sep = false ->
  name <> "" -> startswith name "/" = false -> endswith_char name sep = false ->
  result <> "" -> startswith result "/" = false ->
  os_path_join root ["systems"; name ++ ".json"]
    = root ++ "/systems/" ++ name ++ ".json"
  /\ os_path_join root ["results"; name; "resnet"; result]
     = root ++ "/results/" ++ name ++ "/" ++ "resnet" ++ "/" ++ result
  /\ os_path_join root ["results"; name; "resnet"]
     = root ++ "/results/" ++ name ++ "/" ++ "resnet"
  /\ os_path_join root ["systems"] = root ++ "/systems".
Proof.
  intros Hr Hre Hn Hns Hne Hres Hress.
  unfold os_path_join. simpl fold_left.
  destruct (join_step_literal root "systems" Hr Hre ltac:(discriminate) eq_refl)
    as (Es & Hs1 & Hs2).
  destruct (join_step_literal root "results" Hr Hre ltac:(discriminate) eq_refl)
    as (Er & Hr1 & Hr2).
  rewrite Es, Er.
  assert (Hj : name ++ ".json" <> "") by (apply append_not_empty; discriminate).
  destruct (join_step_literal (root ++ "/" ++ "systems") (name ++ ".json")
              Hs1 Hs2 Hj) as (Ej & _).
  { rewrite startswith_append by exact Hn. exact Hns. }
  destruct (join_step_literal (root ++ "/" ++ "results") name Hr1 Hr2 Hn Hns)
    as (En & Hn1 & Hn2).
  rewrite Hne in Hn2.
  destruct (join_step_literal _ "resnet" Hn1 Hn2 ltac:(discriminate) eq_refl)
    as (Eb & Hb1 & Hb2).
  destruct (join_step_literal _ result Hb1 Hb2 Hres Hress) as (Ef & _).
  rewrite Ej, En, Eb, Ef.
  rewrite !append_assoc. repeat apply conj; reflexivity.
Qed.




(** ** More on the constructor *)

(** X1. Without the MLPerf logging packages the constructor raises
    ImportError whatever its arguments are, valid or not, and leaves the
    world as it was. *)
Theorem constructor_requires_mlperf
    (env : Env) (root : string) (index : Z) (bench : string)
    (tgt : float) (div metric_name metric_label submitter : string)
    (name : option string) (stat : string)
    (cmd : option (list string)) (w : World) :
  mlperf_available env = false ->
  raised (__init__ env root index bench tgt div metric_name metric_label
            submitter name stat cmd w).1 = Some ImportError
  /\ (__init__ env root index bench tgt div metric_name metric_label
        submitter name stat cmd w).2 = w.
Proof.
  intros Hav. unfold __init__, require_mlperf_logging. rewrite Hav.
  split; reflexivity.
Qed.

Lemma constructor_requires_mlperf_witness :
  raised (__init__ without_mlperf "/submission" 0 "bert" 0.759%float "closed"
            "Accuracy" "eval" "MosaicML" None "onprem" None
            Sample.empty_world).1 = Some ImportError.
Proof.
  apply (constructor_requires_mlperf without_mlperf "/submission" 0 "bert"
           0.759%float "closed" "Accuracy" "eval" "MosaicML" None "onprem"
           None Sample.empty_world).
  reflexivity.
Defined.

(** [get_system_description] changes nothing but, at most, the warnings. *)
Lemma get_system_description_world
    (env : Env) (submitter division status : string)
    (system_name : option string) (w : World) :
  let w' := (get_system_description env submitter division status
               system_name w).2 in
  w' = w \/ w' = set_warnings (fun l => (l ++ [nodes_warning])%list) w.
Proof.
  unfold get_system_description, true_div.
  destruct (local_world_size env =? 0); [left; reflexivity |].
  unfold_monad. unfold getitem, as_str, warn. unfold_monad. simpl.
  destruct (negb _); destruct system_name as [name|];
    destruct (cuda_is_available env); simpl; auto.
Qed.

(** The world after the constructor is the world after
    [get_system_description], if the constructor got that far. *)
Lemma constructor_world
    (env : Env) (root : string) (index : Z) (bench : string)
    (tgt : float) (div metric_name metric_label submitter : string)
    (name : option string) (stat : string)
    (cmd : option (list string)) (w : World) :
  let w' := (__init__ env root index bench tgt div metric_name metric_label
               submitter name stat cmd w).2 in
  w' = w \/ w' = (get_system_description env submitter div stat name w).2.
Proof.
  unfold __init__, require_mlperf_logging.
  destruct (mlperf_available env); [| left; reflexivity].
  destruct (bool_decide (bench ∈ BENCHMARKS)); [| left; reflexivity].
  destruct (bool_decide (div ∈ DIVISIONS)); [| left; reflexivity].
  destruct (bool_decide (stat ∈ STATUS)); [| left; reflexivity].
  right. unfold_monad. simpl.
  destruct (get_system_description env submitter div stat name w)
    as [[d|e] w1]; [| reflexivity].
  destruct name as [n|]; simpl; [reflexivity |].
  unfold getitem, as_str.
  destruct (dict_get d "system_name") as [[]|]; reflexivity.
Qed.

(** X2. Constructing the callback has no effect outside the object but,
    at most, the warning about the number of nodes: it logs no record,
    attaches and creates no handler, makes no call to the file system, a
    subprocess or the barrier, and uploads nothing, whether it returns or
    raises. All of that is left to [init]. *)
Theorem constructor_only_warns
    (env : Env) (root : string) (index : Z) (bench : string)
    (tgt : float) (div metric_name metric_label submitter : string)
    (name : option string) (stat : string)
    (cmd : option (list string)) (w : World) :
  let w' := (__init__ env root index bench tgt div metric_name metric_label
               submitter name stat cmd w).2 in
  mllog_records w' = mllog_records w
  /\ mllogger_handlers w' = mllogger_handlers w
  /\ handler_objects w' = handler_objects w
  /\ calls w' = calls w
  /\ artifacts w' = artifacts w
  /\ (warnings w' = warnings w
      \/ warnings w' = (warnings w ++ [nodes_warning])%list).
Proof.
  pose proof (constructor_world env root index bench tgt div metric_name
                metric_label submitter name stat cmd w) as Hc.
  pose proof (get_system_description_world env submitter div stat name w) as Hg.
  simpl in *.
  destruct Hc as [-> | ->]; [repeat apply conj; auto |].
  destruct Hg as [-> | ->]; repeat apply conj; auto.
Qed.

(** A constructor call that returns, in full. *)
Lemma constructor_returns_object
    (env : Env) (root : string) (index : Z) (bench : string)
    (tgt : float) (div metric_name metric_label submitter : string)
    (name : option string) (stat : string)
    (cmd : option (list string)) (w w' : World) (s : Self) :
  __init__ env root index bench tgt div metric_name metric_label submitter
    name stat cmd w = (Returns s, w') ->
  exists d : dict,
    get_system_description env submitter div stat name w = (Returns d, w')
    /\ local_world_size env <> 0
    /\ let n := resolved_name env name in
       let result := "result_" ++ str_of_int index ++ ".txt" in
       s = {| target := tgt; benchmark := bench; division := div;
              submitter := submitter; status := stat;
              cache_clear_cmd := cmd; root_folder := root;
              metric_name := metric_name; metric_label := metric_label;
              _file_handler := None; system_desc := d; system_name := n;
              systems_path := os_path_join root ["systems"; n ++ ".json"];
              filename := os_path_join root ["results"; n; bench; result];
              upload_name := "{run_name}" ++ "/results/" ++ n ++ "/" ++ bench
                             ++ "/" ++ result;
              system_desc_upload_name :=
                "{run_name}" ++ "/systems/" ++ n ++ ".json";
              success := false |}.
Proof.
  intros Hrun.
  destruct (constructor_returns _ _ _ _ _ _ _ _ _ _ _ _ _ _ _ Hrun)
    as (-> & -> & _).
  assert (Hav : mlperf_available env = true).
  { destruct (mlperf_available env) eqn:Hav; [reflexivity |].
    unfold __init__, require_mlperf_logging in Hrun. rewrite Hav in Hrun.
    discriminate. }
  assert (Hs : stat ∈ STATUS).
  { destruct (decide (stat ∈ STATUS)) as [Hs|Hs]; [exact Hs |].
    unfold __init__, require_mlperf_logging in Hrun. rewrite Hav in Hrun.
    rewrite (bool_decide_eq_true_2 ("resnet" ∈ BENCHMARKS)) in Hrun
      by (apply in_BENCHMARKS; reflexivity).
    rewrite (bool_decide_eq_true_2 ("open" ∈ DIVISIONS)) in Hrun
      by (apply in_DIVISIONS; reflexivity).
    rewrite (bool_decide_eq_false_2 _ Hs) in Hrun. discriminate. }
  destruct (constructor_accepts env root index tgt metric_name metric_label
              submitter name stat cmd w Hav Hs)
    as [[_ Hr] | (Hnz & d & w1 & Hd & Hr)]; simpl in Hr; rewrite Hrun in Hr.
  - discriminate.
  - injection Hr as -> ->. exists d. repeat apply conj; auto.
Qed.

(** X3. A constructed callback starts with [success] False and without a
    file handler, and keeps every argument as the attribute of its name:
    target, benchmark, division, submitter, status, metric name and label,
    cache clear command, root folder, and the system name, given or
    generated. Its two paths and two upload names are built from the root
    folder, the system name, the benchmark and the index. It carries a
    system description that agrees with the attributes: the description's
    'submitter', 'division', 'status' and 'system_name' entries are
    [self.submitter], [self.division], [self.status] and
    [self.system_name]. *)
Theorem constructed_object_is_consistent
    (env : Env) (root : string) (index : Z) (bench : string)
    (tgt : float) (div mname mlabel subm : string)
    (name : option string) (stat : string)
    (cmd : option (list string)) (w w' : World) (s : Self) :
  __init__ env root index bench tgt div mname mlabel subm
    name stat cmd w = (Returns s, w') ->
  success s = false /\ _file_handler s = None
  /\ target s = tgt /\ metric_name s = mname
  /\ metric_label s = mlabel /\ cache_clear_cmd s = cmd
  /\ root_folder s = root
  /\ (forall given, name = Some given -> system_name s = given)
  /\ dict_get (system_desc s) "submitter" = Some (VStr (submitter s))
  /\ dict_get (system_desc s) "division" = Some (VStr (division s))
  /\ dict_get (system_desc s) "status" = Some (VStr (status s))
  /\ dict_get (system_desc s) "system_name" = Some (VStr (system_name s))
  /\ benchmark s = bench /\ division s = div
  /\ submitter s = subm /\ status s = stat
  /\ system_name s = resolved_name env name
  /\ systems_path s
     = os_path_join root ["systems"; system_name s ++ ".json"]
  /\ filename s
     = os_path_join root ["results"; system_name s; bench;
                          "result_" ++ str_of_int index ++ ".txt"]
  /\ upload_name s
     = "{run_name}" ++ "/results/" ++ system_name s ++ "/" ++ bench ++ "/"
       ++ "result_" ++ str_of_int index ++ ".txt"
  /\ system_desc_upload_name s
     = "{run_name}" ++ "/systems/" ++ system_name s ++ ".json".
Proof.
  intros Hrun.
  destruct (constructor_returns_object _ _ _ _ _ _ _ _ _ _ _ _ _ _ _ Hrun)
    as (d & Hd & Hnz & Hs).
  simpl in Hs. subst s. simpl.
  destruct (get_system_description_cases env subm div stat name w)
    as [[Hz _] | (_ & d' & w1 & Hd' & Hsub & Hdiv & Hstat & _ & Hname & _)];
    [contradiction |].
  rewrite Hd in Hd'. injection Hd' as <- <-.
  repeat apply conj; auto.
  intros given ->. reflexivity.
Qed.

Lemma constructed_object_is_consistent_witness :
  success (self Run.fresh) = false
  /\ _file_handler (self Run.fresh) = None
  /\ dict_get (system_desc (self Run.fresh)) "system_name"
     = Some (VStr (system_name (self Run.fresh)))
  /\ submitter (self Run.fresh) = "MosaicML"
  /\ benchmark (self Run.fresh) = "resnet".
Proof.
  assert (Hrun : __init__ (Sample.env 0 true) "/submission" 0 "resnet"
                   0.759%float "open" "Accuracy" "eval" "MosaicML" None
                   "onprem" None Sample.empty_world
                 = (Returns (self Run.fresh), world Run.fresh))
    by (vm_compute; reflexivity).
  destruct (constructed_object_is_consistent _ _ _ _ _ _ _ _ _ _ _ _ _ _ _ Hrun)
    as (Hs & Hh & _ & _ & _ & _ & _ & _ & _ & _ & _ & Hn & Hb & _ & Hsub & _).
  repeat apply conj; assumption.
Defined.

(** ** The generated system name *)

Lemma has_char_append (a b : string) (c : ascii) :
  has_char (a ++ b) c = (has_char a c || has_char b c)%bool.
Proof.
  induction a as [|x a IH]; [reflexivity |].
  rewrite append_cons. simpl. rewrite IH. apply orb_assoc.
Qed.

Lemma str_replace_removes (s : string) (old new : ascii) :
  old <> new -> has_char (str_replace s old new) old = false.
Proof.
  intros Hne. induction s as [|a s IH]; [reflexivity |].
  simpl. rewrite IH, orb_false_r.
  destruct (Ascii.eqb a old) eqn:E; [| exact E].
  apply Ascii.eqb_neq. congruence.
Qed.

Lemma digits_have_no_space (d : Decimal.uint) :
  has_char (NilEmpty.string_of_uint d) " " = false.
Proof. induction d; simpl; auto. Qed.

(** [str(n)] is not empty, begins with a digit or a minus sign, and has no
    space. *)
Lemma str_of_int_shape (n : Z) :
  str_of_int n <> ""
  /\ startswith (str_of_int n) "/" = false
  /\ has_char (str_of_int n) " " = false.
Proof.
  unfold str_of_int, NilZero.string_of_int, NilZero.string_of_uint.
  destruct (Z.to_int n) as [d|d].
  - destruct d; simpl; repeat apply conj;
      try discriminate; try reflexivity; apply digits_have_no_space.
  - repeat apply conj; [discriminate | reflexivity |].
    destruct d; simpl; try reflexivity; apply digits_have_no_space.
Qed.

(** The name that [get_system_description] generates. *)
Lemma generated_name_shape (env : Env) :
  let name := resolved_name env None in
  name <> "" /\ startswith name "/" = false
  /\ endswith_char name sep = false /\ has_char name " " = false.
Proof.
  destruct (str_of_int_shape (world_size env)) as (Hne & Hstart & Hspace).
  unfold resolved_name. repeat apply conj.
  - destruct (str_of_int (world_size env)) eqn:E; [contradiction |].
    rewrite append_cons. discriminate.
  - rewrite startswith_append by exact Hne. exact Hstart.
  - rewrite !endswith_char_append; try discriminate; [reflexivity |].
    apply append_not_empty. discriminate.
  - rewrite !has_char_append, Hspace.
    rewrite str_replace_removes by discriminate. reflexivity.
Qed.

(** X4. When no system name is given, the generated name is not empty,
    contains no space, and neither starts nor ends with '/'. So under a root
    folder that is not empty and does not end with '/', the systems file
    path is exactly root_folder/systems/[name].json and the results file
    path exactly root_folder/results/[name]/resnet/result_[index].txt. *)
Theorem generated_name_gives_plain_layout
    (env : Env) (root : string) (index : Z) (bench : string)
    (tgt : float) (div mname mlabel subm : string) (stat : string)
    (cmd : option (list string)) (w w' : World) (s : Self) :
  __init__ env root index bench tgt div mname mlabel subm None stat cmd w
    = (Returns s, w') ->
  has_char (system_name s) " " = false
  /\ system_name s <> ""
  /\ startswith (system_name s) "/" = false
  /\ endswith_char (system_name s) sep = false
  /\ (root <> "" -> endswith_char root sep = false ->
      systems_path s = root ++ "/systems/" ++ system_name s ++ ".json"
      /\ filename s = root ++ "/results/" ++ system_name s ++ "/resnet/result_"
                      ++ str_of_int index ++ ".txt").
Proof.
  intros Hrun.
  destruct (constructor_returns _ _ _ _ _ _ _ _ _ _ _ _ _ _ _ Hrun)
    as (-> & -> & _ & _ & Hname & Hsys & Hfile).
  pose proof (generated_name_shape env) as Hshape. cbv zeta in Hshape.
  rewrite <- Hname in Hshape.
  destruct Hshape as (Hne & Hstart & Hend & Hspace).
  repeat apply conj; try assumption.
  intros Hr Hre.
  destruct (literal_paths root (system_name s)
              ("result_" ++ str_of_int index ++ ".txt") Hr Hre Hne Hstart Hend)
    as (Es & Ef & _); [discriminate | reflexivity |].
  rewrite Hsys, Hfile, Es, Ef. split; reflexivity.
Qed.

Lemma generated_name_gives_plain_layout_witness :
  has_char (system_name (self Run.fresh)) " " = false
  /\ systems_path (self Run.fresh)
     = "/submission" ++ "/systems/" ++ system_name (self Run.fresh) ++ ".json".
Proof.
  assert (Hrun : __init__ (Sample.env 0 true) "/submission" 0 "resnet"
                   0.759%float "open" "Accuracy" "eval" "MosaicML" None
                   "onprem" None Sample.empty_world
                 = (Returns (self Run.fresh), world Run.fresh))
    by (vm_compute; reflexivity).
  destruct (generated_name_gives_plain_layout _ _ _ _ _ _ _ _ _ _ _ _ _ _ Hrun)
    as (Hspace & _ & _ & _ & Hpaths).
  split; [exact Hspace |].
  apply Hpaths; [discriminate | reflexivity].
Defined.

(** ** [init] from beginning to end *)

Lemma before_check_unrefused (env : Env) (m : Machine) :
  os_refuses_nothing env ->
  before_check env m
  = (Returns tt,
     {| self := self m;
        world := set_calls (fun l =>
          (l ++ (if local_rank env =? 0
                 then folder_calls (self m) ++ [write_call (self m)]
                 else []) ++ [Barrier])%list) (world m) |}).
Proof.
  intros Hos. destruct m as [s w]. unfold before_check. rewrite gets_bind.
  simpl self. unfold_prims. unfold os_call, folder_calls, write_call.
  destruct (local_rank env =? 0); unfold_monad; simpl.
  - repeat (rewrite !Hos; simpl).
    unfold set_calls. simpl. rewrite <- !app_assoc. reflexivity.
  - reflexivity.
Qed.

(** A handler object that has just been created is the last one. *)
Lemma new_handler_lookup (objs : list FileHandler) (o : FileHandler) :
  (objs ++ [o])%list !! length objs = Some o.
Proof. apply list_lookup_middle. reflexivity. Qed.

Lemma new_handler_insert (objs : list FileHandler) (o o' : FileHandler) :
  <[length objs := o']> (objs ++ [o])%list = (objs ++ [o'])%list.
Proof.
  rewrite insert_app_r_alt by lia. rewrite Nat.sub_diag. reflexivity.
Qed.

Lemma attach_attaches (h : nat) (l : list nat) : h ∈ attach h l.
Proof.
  unfold attach. destruct (bool_decide (h ∈ l)) eqn:E.
  - apply bool_decide_eq_true in E. exact E.
  - apply elem_of_app. right. apply list_elem_of_here.
Qed.

Ltac unfold_setters :=
  unfold set_records, set_handlers, set_objects, set_calls, set_artifacts,
    set_warnings in *.

(** The four ways in which the second half of [init] can end: the results
    file exists; it cannot be opened; the cache clear command fails; or
    [init] returns. *)
Lemma after_barrier_cases (env : Env) (s : Self) (m1 : Machine) :
  let fn := filename s in
  let tr := calls (world m1) in
  let r := after_barrier env s m1 in
  (os_path_exists env tr fn = true
   /\ r = (Raises (Exn FileExistsError (fn ++ " already exists.")),
           {| self := self m1;
              world := set_calls (fun l => (l ++ [PathExists fn])%list)
                         (world m1) |}))
  \/ (os_path_exists env tr fn = false
      /\ exists e,
           os_error env (tr ++ [PathExists fn])%list (OpenAppend fn) = Some e
           /\ r = (Raises e,
                   {| self := self m1;
                      world := set_calls (fun l => (l ++ open_trace s)%list)
                                 (world m1) |}))
  \/ (os_path_exists env tr fn = false
      /\ os_error env (tr ++ [PathExists fn])%list (OpenAppend fn) = None
      /\ exists cmd e,
           cache_clear_cmd s = Some cmd
           /\ os_error env (tr ++ open_trace s)%list (RunCommand cmd) = Some e
           /\ r = (Raises e,
                   with_results_handler s m1 []
                     (open_trace s ++ command_trace s) [] []))
  \/ (os_path_exists env tr fn = false
      /\ os_error env (tr ++ [PathExists fn])%list (OpenAppend fn) = None
      /\ (forall cmd, cache_clear_cmd s = Some cmd ->
            os_error env (tr ++ open_trace s)%list (RunCommand cmd) = None)
      /\ r = (Returns tt,
              with_results_handler s m1 (init_records env s)
                (open_trace s ++ command_trace s)
                (init_uploads env s) (init_warned s))).
Proof.
  destruct m1 as [s1 w1]. simpl.
  unfold after_barrier, with_results_handler, init_records, init_uploads,
    init_warned, open_trace, command_trace, submission_records, event,
    results_handler, attach, CACHE_CLEAR_interval, INIT_START_interval.
  unfold_prims. unfold os_call, os_path_exists_. unfold_monad.
  unfold_setters. simpl.
  destruct (os_path_exists env (calls w1) (filename s)) eqn:Hex; simpl.
  { left. split; reflexivity. }
  right.
  destruct (os_error env (calls w1 ++ [PathExists (filename s)])
              (OpenAppend (filename s))) as [e|] eqn:Hopen; simpl.
  { left. split; [reflexivity |]. exists e. split; [reflexivity |].
    rewrite <- !app_assoc. reflexivity. }
  right. rewrite new_handler_lookup, new_handler_insert.
  rewrite <- !app_assoc. simpl.
  destruct (cache_clear_cmd s) as [cmd|] eqn:Hcmd; simpl.
  - destruct (os_error env _ (RunCommand cmd)) as [e|] eqn:Hrun; simpl.
    + left. split; [reflexivity |]. split; [reflexivity |].
      exists cmd, e. split; [reflexivity |]. split; [exact Hrun |].
      rewrite ?app_nil_r, <- ?app_assoc. reflexivity.
    + right. repeat split; [intros cmd' [= <-]; exact Hrun |].
      destruct (rank_zero env); simpl;
        rewrite ?app_nil_r, <- ?app_assoc; reflexivity.
  - right. repeat split; [intros cmd' [=] |].
    destruct (rank_zero env); simpl;
      rewrite ?app_nil_r, <- ?app_assoc; reflexivity.
Qed.

(** X5. When the operating system refuses no call and the results file
    does not exist at the check, [init] returns. It has then made, in this
    order, the calls for the folders and the system description (on local
    rank zero), the barrier, the existence check, the opening of the results
    file and the cache clear command (if there is one); it has created one
    handler object for the results file with level INFO, stored it in
    [_file_handler] and attached it to the logger; it has logged the start
    of CACHE_CLEAR (if there is a command) and of INIT_START, followed on
    global rank zero by the five submission records taken from the object's
    attributes; it has uploaded the system description on global rank zero
    only; and it has warned exactly when there is no cache clear command. *)
Theorem init_on_a_new_results_file (env : Env) (st : State) (m : Machine) :
  os_refuses_nothing env ->
  os_path_exists env (calls (world (before_check env m).2))
    (filename (self m)) = false ->
  let s := self m in
  let h := length (handler_objects (world m)) in
  let m' := (init env st m).2 in
  (init env st m).1 = Returns tt
  /\ self m' = set_file_handler (Some h) s
  /\ handler_objects (world m')
     = (handler_objects (world m) ++ [results_handler s])%list
  /\ mllogger_handlers (world m') = attach h (mllogger_handlers (world m))
  /\ emitted m m' = init_records env s
  /\ uploaded m m' = init_uploads env s
  /\ added calls (world m) (world m') = init_trace env s
  /\ added warnings (world m) (world m') = init_warned s.
Proof.
  intros Hos Hnew.
  pose proof (before_check_unrefused env m Hos) as E.
  rewrite E in Hnew. simpl in Hnew.
  rewrite init_split, (bind_returns _ _ _ _ _ E).
  match goal with
  | |- context [after_barrier env (self m) ?m1] =>
      destruct (after_barrier_cases env (self m) m1)
        as [(Hex & _) | [(_ & e & He & _) | [(_ & _ & c & e & _ & He & _)
           | (_ & _ & _ & Hr)]]]
  end; simpl in *.
  - congruence.
  - rewrite Hos in He. discriminate.
  - rewrite Hos in He. discriminate.
  - rewrite Hr. unfold with_results_handler, emitted, uploaded, added,
      init_trace, open_trace, command_trace. simpl.
    rewrite !drop_app_length.
    repeat apply conj; try reflexivity.
    rewrite <- !app_assoc. rewrite drop_app_length.
    destruct (local_rank env =? 0); simpl; rewrite <- ?app_assoc; reflexivity.
Qed.

Lemma init_on_a_new_results_file_witness :
  (init (Sample.env 0 true) (Run.state 0 ∅) Run.fresh).1 = Returns tt
  /\ _file_handler (self initialised) = Some 0%nat
  /\ mllogger_handlers (world initialised) = [0%nat]
  /\ logged_keys Run.fresh initialised
     = [INIT_START; SUBMISSION_BENCHMARK; SUBMISSION_DIVISION; SUBMISSION_ORG;
        SUBMISSION_PLATFORM; SUBMISSION_STATUS].
Proof.
  assert (Hos : os_refuses_nothing (Sample.env 0 true))
    by (intros tr c; reflexivity).
  assert (Hnew : os_path_exists (Sample.env 0 true)
                   (calls (world (before_check (Sample.env 0 true)
                                    Run.fresh).2))
                   (filename (self Run.fresh)) = false)
    by (vm_compute; reflexivity).
  destruct (init_on_a_new_results_file (Sample.env 0 true) (Run.state 0 ∅)
              Run.fresh Hos Hnew) as (Hret & Hself & _ & Hh & Hrec & _).
  split; [exact Hret |].
  unfold logged_keys, initialised.
  split; [rewrite Hself; vm_compute; reflexivity |].
  split; [rewrite Hh; vm_compute; reflexivity |].
  rewrite Hrec. vm_compute. reflexivity.
Defined.

(** X6. [init] logs nothing before the handler of the results file is in
    place: whenever a call of [init] has logged a record, whether it then
    returns or raises, [_file_handler] refers to a handler object of the
    results file with level INFO that is open and attached to the logger. *)
Theorem init_logs_only_with_handler (env : Env) (st : State) (m : Machine) :
  let m' := (init env st m).2 in
  emitted m m' <> [] ->
  exists h : nat,
    _file_handler (self m') = Some h
    /\ h ∈ mllogger_handlers (world m')
    /\ handler_objects (world m') !! h = Some (results_handler (self m)).
Proof.
  simpl. rewrite init_split.
  pose proof (before_check_self env m) as Hself.
  destruct (before_check_keeps env) as (_ & _ & Hrec & _).
  specialize (Hrec m). unfold on_self, frame_all, on_world, keeps in *.
  destruct (before_check env m) as [[[]|e] m1] eqn:E; simpl in *.
  2:{ rewrite (bind_raises _ _ _ _ _ E). simpl. unfold emitted, added.
      rewrite Hrec, drop_all. contradiction. }
  rewrite (bind_returns _ _ _ _ _ E).
  destruct (after_barrier_cases env (self m) m1)
    as [(_ & Hr) | [(_ & e & _ & Hr) | [(_ & _ & c & e & _ & _ & Hr)
       | (_ & _ & _ & Hr)]]]; simpl in Hr; rewrite Hr;
    unfold emitted, added; simpl; rewrite ?Hrec, ?app_nil_r, ?drop_all;
    try contradiction.
  intros _. exists (length (handler_objects (world m1))).
  split; [reflexivity |]. split; [apply attach_attaches |].
  apply new_handler_lookup.
Qed.

Lemma init_logs_only_with_handler_witness :
  exists h : nat,
    _file_handler (self initialised) = Some h
    /\ h ∈ mllogger_handlers (world initialised)
    /\ handler_objects (world initialised) !! h
       = Some (results_handler (self Run.fresh)).
Proof.
  assert (Hne : emitted Run.fresh
                  (init (Sample.env 0 true) (Run.state 0 ∅) Run.fresh).2
                <> []) by (vm_compute; discriminate).
  unfold initialised.
  exact (init_logs_only_with_handler (Sample.env 0 true) (Run.state 0 ∅)
           Run.fresh Hne).
Defined.

Lemma before_check_calls_grow (env : Env) :
  stable (on_world (grows calls (fun _ => True))) (before_check env).
Proof.
  unfold before_check. unfold_prims. repeat world_step; exact I.
Qed.

(** X7. When the cache clear command fails, [init] raises its error with
    the results file already opened and its handler already stored in
    [_file_handler] and attached to the logger, and with nothing logged: the
    error leaves the handler behind. *)
Theorem init_failed_command_leaves_handler
    (env : Env) (st : State) (m m1 : Machine) (cmd : list string) (e : exn) :
  before_check env m = (Returns tt, m1) ->
  os_path_exists env (calls (world m1)) (filename (self m)) = false ->
  os_error env (calls (world m1) ++ [PathExists (filename (self m))])%list
    (OpenAppend (filename (self m))) = None ->
  cache_clear_cmd (self m) = Some cmd ->
  os_error env (calls (world m1) ++ open_trace (self m))%list (RunCommand cmd)
    = Some e ->
  let m' := (init env st m).2 in
  (init env st m).1 = Raises e
  /\ (exists h, _file_handler (self m') = Some h
                /\ h ∈ mllogger_handlers (world m')
                /\ handler_objects (world m') !! h
                   = Some (results_handler (self m)))
  /\ OpenAppend (filename (self m)) ∈ added calls (world m) (world m')
  /\ emitted m m' = [].
Proof.
  intros E Hnew Hopen Hcmd Hrun. simpl.
  rewrite init_split, (bind_returns _ _ _ _ _ E).
  destruct (before_check_keeps env) as (_ & _ & Hrec & _).
  specialize (Hrec m). rewrite E in Hrec. unfold on_world, keeps in Hrec.
  simpl in Hrec.
  pose proof (before_check_calls_grow env m) as Hcalls.
  rewrite E in Hcalls. unfold on_world in Hcalls. simpl in Hcalls.
  destruct Hcalls as (l & Hcalls & _).
  destruct (after_barrier_cases env (self m) m1)
    as [(Hex & _) | [(_ & e' & He & _) | [(_ & _ & c & e' & Hc & He & Hr)
       | (_ & _ & Hok & _)]]]; simpl in *.
  - congruence.
  - congruence.
  - rewrite Hcmd in Hc. injection Hc as <-. rewrite Hrun in He.
    injection He as <-. rewrite Hr. simpl.
    repeat apply conj.
    + reflexivity.
    + exists (length (handler_objects (world m1))).
      split; [reflexivity |]. split; [apply attach_attaches |].
      apply new_handler_lookup.
    + unfold added. simpl. rewrite Hcalls, <- app_assoc, drop_app_length.
      apply elem_of_app. right.
      apply list_elem_of_further, list_elem_of_here.
    + unfold emitted, added. simpl. rewrite app_nil_r, Hrec. apply drop_all.
  - rewrite (Hok cmd Hcmd) in Hrun. discriminate.
Qed.

Lemma init_failed_command_leaves_handler_witness :
  raised (init subprocess_fails (Run.state 0 ∅) fresh_with_command).1
    = Some CalledProcessError
  /\ emitted fresh_with_command
       (init subprocess_fails (Run.state 0 ∅) fresh_with_command).2 = [].
Proof.
  assert (E : before_check subprocess_fails fresh_with_command
              = (Returns tt, (before_check subprocess_fails
                                fresh_with_command).2))
    by (vm_compute; reflexivity).
  assert (Hnew : os_path_exists subprocess_fails
                   (calls (world (before_check subprocess_fails
                                    fresh_with_command).2))
                   (filename (self fresh_with_command)) = false)
    by (vm_compute; reflexivity).
  assert (Hcmd : cache_clear_cmd (self fresh_with_command) = Some ["sync"])
    by (vm_compute; reflexivity).
  destruct (init_failed_command_leaves_handler subprocess_fails
              (Run.state 0 ∅) fresh_with_command _ ["sync"]
              (Exn CalledProcessError "returned non-zero exit status 1")
              E Hnew eq_refl Hcmd eq_refl) as (Hraise & _ & _ & Hquiet).
  split; [rewrite Hraise; reflexivity | exact Hquiet].
Defined.

(** ** [eval_end] at the edges *)

Lemma SFcompare_refl (s : spec_float) :
  SFcompare s s = Some Eq \/ SFcompare s s = None.
Proof.
  destruct s as [b|b| |b m e]; simpl; auto; left.
  - destruct b; reflexivity.
  - rewrite Z.compare_refl, Pos.compare_cont_refl. destruct b; reflexivity.
Qed.

(** No float is below itself. *)
Lemma ltb_irrefl (x : float) : PrimFloat.ltb x x = false.
Proof.
  rewrite FloatAxioms.ltb_spec. unfold SFltb.
  destruct (SFcompare_refl (Prim2SF x)) as [-> | ->]; reflexivity.
Qed.

(** Nothing is below NaN. *)
Lemma ltb_nan_r (x a : float) : is_nan a = true -> PrimFloat.ltb x a = false.
Proof.
  unfold is_nan. rewrite FloatAxioms.eqb_spec, FloatAxioms.ltb_spec.
  unfold SFeqb, SFltb.
  intros Hnan.
  assert (Ha : Prim2SF a = S754_nan).
  { destruct (Prim2SF a) as [b|b| |b m e]; simpl in Hnan;
      try reflexivity; try (destruct b; discriminate).
    rewrite Z.compare_refl, Pos.compare_cont_refl in Hnan.
    destruct b; discriminate. }
  rewrite Ha. destruct (Prim2SF x); reflexivity.
Qed.

(** [eval_end] on global rank zero, once the accuracy is fetched. *)
Lemma eval_end_fetched (env : Env) (st : State) (m : Machine) (a : float) :
  rank_zero env = true ->
  fetched (self m) st = Some a ->
  eval_end env st m
  = (Returns tt,
     if run_stop_due (self m) st then stopped st a m
     else logging (eval_records st a) m).
Proof.
  intros Hz Hf. destruct m as [s w]. simpl in Hf. simpl self.
  unfold run_stop_due, exceeds_target. rewrite Hf.
  unfold fetched in Hf.
  unfold eval_end, _get_accuracy, stopped, logging, eval_records, epoch_num,
    detach.
  rewrite Hz. unfold_prims. unfold_monad. unfold_setters. simpl.
  destruct (current_metrics st !! metric_label s) as [metrics|];
    [| discriminate].
  rewrite Hf. simpl.
  destruct (PrimFloat.ltb (target s) a); destruct (success s) eqn:Hs;
    simpl; rewrite ?Hs; simpl; rewrite <- ?app_assoc; try reflexivity.
  destruct (_file_handler s); reflexivity.
Qed.

(** X8. The target has to be exceeded strictly, and a NaN never exceeds
    it: on global rank zero, when the fetched accuracy equals the target or
    is NaN, [eval_end] returns with EVAL_STOP, EVAL_ACCURACY and BLOCK_STOP
    logged and nothing else: no RUN_STOP, [success] and the logger's handlers
    as they were. *)
Theorem eval_end_needs_strictly_more
    (env : Env) (st : State) (m : Machine) (a : float) :
  global_rank env = 0 ->
  fetched (self m) st = Some a ->
  a = target (self m) \/ is_nan a = true ->
  eval_end env st m = (Returns tt, logging (eval_records st a) m)
  /\ logged_keys m (eval_end env st m).2
     = [EVAL_STOP; EVAL_ACCURACY; BLOCK_STOP]
  /\ success (self (eval_end env st m).2) = success (self m)
  /\ mllogger_handlers (world (eval_end env st m).2)
     = mllogger_handlers (world m).
Proof.
  intros Hrank Hf Ha.
  assert (Hz : rank_zero env = true) by (apply Z.eqb_eq; exact Hrank).
  assert (Hlt : PrimFloat.ltb (target (self m)) a = false).
  { destruct Ha as [-> | Hnan]; [apply ltb_irrefl | apply ltb_nan_r, Hnan]. }
  rewrite (eval_end_fetched env st m a Hz Hf).
  unfold run_stop_due, exceeds_target. rewrite Hf, Hlt. simpl.
  repeat apply conj; try reflexivity.
  unfold logged_keys, emitted, added, logging. simpl.
  rewrite drop_app_length. reflexivity.
Qed.

Lemma eval_end_needs_strictly_more_witness :
  logged_keys initialised
    (eval_end (Sample.env 0 true) (Run.state 1 (Run.accuracy 0.759%float))
       initialised).2
  = [EVAL_STOP; EVAL_ACCURACY; BLOCK_STOP].
Proof.
  assert (Hf : fetched (self initialised)
                 (Run.state 1 (Run.accuracy 0.759%float))
               = Some 0.759%float) by (vm_compute; reflexivity).
  assert (Ht : 0.759%float = target (self initialised))
    by (vm_compute; reflexivity).
  exact (proj1 (proj2 (eval_end_needs_strictly_more (Sample.env 0 true)
           (Run.state 1 (Run.accuracy 0.759%float)) initialised 0.759%float
           eq_refl Hf (or_introl Ht)))).
Defined.

(** X9. On global rank zero, when the state has no metrics at all under
    [metric_label], [eval_end] raises KeyError (not the ValueError of the
    accuracy check) and leaves the object and the world as they were. *)
Theorem eval_end_missing_label (env : Env) (st : State) (m : Machine) :
  global_rank env = 0 ->
  current_metrics st !! metric_label (self m) = None ->
  eval_end env st m = (Raises (Exn KeyError (metric_label (self m))), m).
Proof.
  intros Hrank Hlabel.
  unfold eval_end, rank_zero, _get_accuracy. rewrite Hrank.
  unfold_monad. simpl. rewrite Hlabel. destruct m; reflexivity.
Qed.

Lemma eval_end_missing_label_witness :
  eval_end (Sample.env 0 true)
    {| train_dataloader := Run.loader 1281167;
       evaluators := [];
       seed := 17; grad_accum := 1; timer_epoch := 1;
       current_metrics := {[ "train" := Run.accuracy 0.9%float ]} |}
    Run.fresh
  = (Raises (Exn KeyError (metric_label (self Run.fresh))), Run.fresh).
Proof.
  apply eval_end_missing_label; [reflexivity | vm_compute; reflexivity].
Defined.

(** ** Handlers and RUN_STOP over all hooks *)

Ltac unfold_hooks :=
  unfold fit_start, fit_start_checks, epoch_start, epoch_end, eval_start,
    eval_end, close, _get_accuracy.

Lemma hooks_keep_handlers (env : Env) (h : hook) (st : State) :
  h <> Init -> h <> Eval_end ->
  stable (on_world (keeps mllogger_handlers)) (call env h st).
Proof.
  intros Hi He. destruct h; try contradiction; simpl; unfold_hooks;
    unfold_prims; repeat world_step.
Qed.

Lemma hooks_keep_objects (env : Env) (h : hook) (st : State) :
  h <> Init -> h <> Close ->
  stable (on_world (keeps handler_objects)) (call env h st).
Proof.
  intros Hi Hc. destruct h; try contradiction; simpl; unfold_hooks;
    unfold_prims; repeat world_step.
Qed.

Lemma eval_end_handlers (env : Env) (st : State) (m : Machine) :
  let m' := (eval_end env st m).2 in
  mllogger_handlers (world m') = mllogger_handlers (world m)
  \/ mllogger_handlers (world m')
     = detach (_file_handler (self m)) (mllogger_handlers (world m)).
Proof.
  simpl. destruct (rank_zero env) eqn:Hz.
  - destruct (eval_end_step env st m Hz) as (_ & _ & Hh). simpl in Hh.
    rewrite Hh. destruct (_ && _)%bool; auto.
  - unfold eval_end. rewrite Hz. left. reflexivity.
Qed.

(** X10. No hook but [init] attaches a handler to the logger or creates a
    handler object. Of the other hooks only [eval_end] changes the logger's
    handlers, and only by detaching the callback's own file handler; only
    [close] changes a handler object, and it changes none in number. *)
Theorem only_init_attaches (env : Env) (h : hook) (st : State) (m : Machine) :
  h <> Init ->
  let m' := (call env h st m).2 in
  (mllogger_handlers (world m') = mllogger_handlers (world m)
   \/ (h = Eval_end
       /\ mllogger_handlers (world m')
          = detach (_file_handler (self m)) (mllogger_handlers (world m))))
  /\ (h <> Close -> handler_objects (world m') = handler_objects (world m))
  /\ length (handler_objects (world m')) = length (handler_objects (world m)).
Proof.
  intros Hi. simpl.
  assert (Hobjs : h <> Close ->
            handler_objects (world (call env h st m).2)
            = handler_objects (world m)).
  { intros Hc. apply (hooks_keep_objects env h st Hi Hc m). }
  repeat apply conj.
  - destruct (decide (h = Eval_end)) as [-> | He].
    + destruct (eval_end_handlers env st m) as [H | H]; simpl in H; auto.
    + left. apply (hooks_keep_handlers env h st Hi He m).
  - exact Hobjs.
  - destruct (decide (h = Close)) as [-> | Hc]; [| rewrite Hobjs; auto].
    simpl. destruct m as [s w]. unfold close, handler_close. unfold_monad.
    simpl. destruct (_file_handler s) as [k|]; simpl; [| reflexivity].
    destruct (handler_objects w !! k); [apply length_insert | reflexivity].
Qed.

Lemma only_init_attaches_witness :
  length (handler_objects
            (world (call (Sample.env 0 true) Close (Run.state 0 ∅)
                      initialised).2))
  = length (handler_objects (world initialised)).
Proof.
  exact (proj2 (proj2 (only_init_attaches (Sample.env 0 true) Close
                         (Run.state 0 ∅) initialised ltac:(discriminate)))).
Defined.

Lemma log_dict_run (data : list (mlkey * pyval)) (w : World) :
  _log_dict data w
  = (Returns tt, set_records (fun l => (l ++ dict_records data)%list) w).
Proof.
  unfold _log_dict, dict_records. revert w.
  induction data as [|[k v] data IH]; intros w; simpl.
  - destruct w. unfold set_records. simpl. rewrite app_nil_r. reflexivity.
  - unfold mbind, M_bind. unfold mllogger_event at 1. unfold modify.
    rewrite IH. destruct w. unfold set_records, event. simpl.
    rewrite <- app_assoc. reflexivity.
Qed.

(** [fit_start] on global rank zero, by the outcome of its checks. *)
Lemma fit_start_run (env : Env) (st : State) (m : Machine) :
  rank_zero env = true ->
  fit_start env st m
  = match (fit_start_checks env st (world m)).1 with
    | Returns data => (Returns tt, fit_started data m)
    | Raises e => (Raises e, m)
    end.
Proof.
  intros Hz. destruct (fit_start_checks_outcome env st (world m)) as (Hw & _).
  unfold fit_start. rewrite Hz. unfold_monad.
  destruct (fit_start_checks env st (world m)) as [[data|e] w'] eqn:E;
    simpl in *; subst w'.
  - rewrite log_dict_run. unfold fit_started, mllogger_event, dist_barrier.
    unfold_monad. unfold_setters. simpl. destruct m as [s w]. simpl.
    rewrite <- !app_assoc. reflexivity.
  - destruct m; reflexivity.
Qed.

Lemma filter_not_RUN_STOP (l : list LogRecord) :
  Forall not_RUN_STOP l -> filter (fun r => lr_key r = RUN_STOP) l = [].
Proof.
  induction 1 as [|r l Hr _ IH]; [reflexivity |].
  rewrite filter_cons_False by exact Hr. exact IH.
Qed.

Lemma fit_start_no_RUN_STOP (env : Env) (st : State) :
  stable (on_world (grows mllog_records not_RUN_STOP)) (fit_start env st).
Proof.
  destruct (rank_zero env) eqn:Hz.
  - intros m. unfold on_world. rewrite (fit_start_run env st m Hz).
    destruct (fit_start_checks_outcome env st (world m)) as (_ & _ & Hkeys).
    destruct (fit_start_checks env st (world m)).1 as [data|e] eqn:E;
      [| reflexivity].
    specialize (Hkeys data eq_refl).
    destruct data as [|[k1 v1] [|[k2 v2] [|[k3 v3] [|[k4 v4] [|[k5 v5] [|? ?]]]]]];
      try discriminate.
    injection Hkeys as -> -> -> -> ->.
    eexists. split; [reflexivity |].
    repeat constructor; discriminate.
  - unfold fit_start. rewrite Hz. unfold_prims. repeat world_step.
    discriminate.
Qed.

(** No hook but [eval_end] logs a RUN_STOP record. *)
Lemma hooks_log_no_RUN_STOP (env : Env) (h : hook) (st : State) :
  h <> Eval_end ->
  stable (on_world (grows mllog_records not_RUN_STOP)) (call env h st).
Proof.
  intros He. destruct h; try contradiction; simpl.
  - unfold init. unfold_prims. cbn [for_each].
    repeat world_step; discriminate.
  - apply fit_start_no_RUN_STOP.
  - unfold_hooks. unfold_prims. repeat world_step; discriminate.
  - unfold_hooks. unfold_prims. repeat world_step; discriminate.
  - unfold_hooks. unfold_prims. repeat world_step; discriminate.
  - unfold_hooks. unfold_prims. repeat world_step.
Qed.

Lemma hooks_log_more (env : Env) (h : hook) (st : State) (m : Machine) :
  exists l, mllog_records (world (call env h st m).2)
            = (mllog_records (world m) ++ l)%list.
Proof.
  destruct (decide (h = Eval_end)) as [-> | He].
  - assert (H : stable (on_world (grows mllog_records (fun _ => True)))
                  (eval_end env st)).
    { unfold_hooks. unfold_prims. repeat world_step; exact I. }
    destruct (H m) as (l & Hl & _). exists l. exact Hl.
  - destruct (hooks_log_no_RUN_STOP env h st He m) as (l & Hl & _).
    exists l. exact Hl.
Qed.

(** One hook: how many RUN_STOP records, and what becomes of [success]. *)
Lemma hook_run_stops (env : Env) (h : hook) (st : State) (m : Machine) :
  let m' := (call env h st m).2 in
  length (run_stops m m') = stops_between (success (self m)) (success (self m'))
  /\ (success (self m) = true -> success (self m') = true).
Proof.
  simpl. destruct (decide (h = Eval_end)) as [-> | He].
  - simpl. destruct (rank_zero env) eqn:Hz.
    + destruct (eval_end_step env st m Hz) as (Hs & Hstops & _).
      simpl in *. rewrite Hs, Hstops. unfold stops_between.
      destruct (success (self m)); destruct (exceeds_target (self m) st);
        simpl; auto.
    + unfold eval_end. rewrite Hz. simpl.
      unfold run_stops, emitted, added, stops_between. rewrite drop_all.
      destruct (success (self m)); auto.
  - assert (Hs : success (self (call env h st m).2) = success (self m)).
    { destruct (decide (h = Init)) as [-> | Hi].
      - apply (init_frame env st m).
      - pose proof (other_hooks_frame env h st Hi He m) as Hf.
        unfold on_self, frame_all in Hf. rewrite Hf. reflexivity. }
    rewrite Hs. split; [| auto].
    pose proof (hooks_log_no_RUN_STOP env h st He m) as Hg.
    apply grows_added in Hg. destruct Hg as [_ Hall].
    unfold run_stops, emitted. rewrite (filter_not_RUN_STOP _ Hall).
    unfold stops_between. destruct (success (self m)); reflexivity.
Qed.

Lemma run_stops_app (m m1 m2 : Machine) :
  (exists l, mllog_records (world m1) = (mllog_records (world m) ++ l)%list) ->
  (exists l, mllog_records (world m2) = (mllog_records (world m1) ++ l)%list) ->
  run_stops m m2 = (run_stops m m1 ++ run_stops m1 m2)%list.
Proof.
  intros (l1 & E1) (l2 & E2). unfold run_stops, emitted, added.
  rewrite E2, E1, <- app_assoc, !drop_app_length.
  rewrite app_assoc, drop_app_length. apply filter_app.
Qed.

Lemma run_hooks_log_more (env : Env) (hs : list (hook * State)) (m : Machine) :
  exists l, mllog_records (world (run_hooks env hs m))
            = (mllog_records (world m) ++ l)%list.
Proof.
  revert m. induction hs as [|[h st] hs IH]; intros m; simpl.
  - exists []. symmetry. apply app_nil_r.
  - destruct (hooks_log_more env h st m) as (l1 & E1).
    destruct (IH (call env h st m).2) as (l2 & E2).
    exists (l1 ++ l2)%list. rewrite E2, E1. symmetry. apply app_assoc.
Qed.

(** X11. Over any sequence of hooks, in any surroundings and whatever
    raises on the way, the callback logs RUN_STOP at most once: exactly once
    if [success] goes from False to True, and never if it was True at the
    start or is still False at the end. [success] never goes back to False,
    and the configuration attributes never change. *)
Theorem run_stop_at_most_once
    (env : Env) (hs : list (hook * State)) (m : Machine) :
  let m' := run_hooks env hs m in
  length (run_stops m m') = stops_between (success (self m)) (success (self m'))
  /\ (success (self m) = true -> success (self m') = true)
  /\ config_unchanged (self m) (self m')
  /\ (length (run_stops m m') <= 1)%nat.
Proof.
  simpl.
  assert (H : length (run_stops m (run_hooks env hs m))
              = stops_between (success (self m))
                  (success (self (run_hooks env hs m)))
              /\ (success (self m) = true ->
                  success (self (run_hooks env hs m)) = true)
              /\ config_unchanged (self m) (self (run_hooks env hs m))).
  { revert m. induction hs as [|[h st] hs IH]; intros m; simpl.
    - unfold run_stops, emitted, added, stops_between. rewrite drop_all.
      apply conj; [destruct (success (self m)); reflexivity |].
      apply conj; [auto |].
      unfold config_unchanged. repeat apply conj; reflexivity.
    - destruct (hook_run_stops env h st m) as [Hlen Hmono]. simpl in *.
      destruct (IH (call env h st m).2) as (Hlen' & Hmono' & Hconf').
      assert (Hconf : config_unchanged (self m) (self (call env h st m).2)).
      { destruct (decide (h = Init)) as [-> | Hi]; [apply (init_frame env st m) |].
        destruct (decide (h = Eval_end)) as [-> | He];
          [apply (eval_end_frame env st m) |].
        pose proof (other_hooks_frame env h st Hi He m) as Hf.
        unfold on_self, frame_all in Hf. rewrite Hf.
        unfold config_unchanged. repeat apply conj; reflexivity. }
      rewrite (run_stops_app m (call env h st m).2)
        by (apply hooks_log_more || apply run_hooks_log_more).
      rewrite length_app, Hlen, Hlen'. unfold stops_between in *.
      apply conj; [| apply conj].
      + destruct (success (self m)) eqn:S0.
        * rewrite (Hmono eq_refl). reflexivity.
        * destruct (success (self (call env h st m).2)) eqn:S1.
          -- rewrite (Hmono' eq_refl). reflexivity.
          -- reflexivity.
      + intros Hs. apply Hmono', Hmono, Hs.
      + unfold config_unchanged in *. intuition congruence. }
  destruct H as (Hlen & Hmono & Hconf).
  apply conj; [exact Hlen |]. apply conj; [exact Hmono |].
  apply conj; [exact Hconf |].
  rewrite Hlen. unfold stops_between.
  destruct (success (self m)); [lia |].
  destruct (success (self (run_hooks env hs m))); lia.
Qed.

(** ** One epoch *)

Lemma epoch_start_run (env : Env) (st : State) (m : Machine) :
  rank_zero env = true ->
  epoch_start env st m = (Returns tt, logging (epoch_start_records st) m).
Proof.
  intros Hz. unfold epoch_start, logging, epoch_start_records, epoch_num.
  rewrite Hz. unfold_prims. unfold_monad. unfold_setters.
  destruct m as [s w]. simpl. rewrite <- app_assoc. reflexivity.
Qed.

Lemma eval_start_run (env : Env) (st : State) (m : Machine) :
  rank_zero env = true ->
  eval_start env st m = (Returns tt, logging [eval_start_record st] m).
Proof.
  intros Hz. unfold eval_start, logging, eval_start_record, epoch_num.
  rewrite Hz. unfold_prims. unfold_monad. unfold_setters.
  destruct m as [s w]. reflexivity.
Qed.

Lemma epoch_end_run (env : Env) (st : State) (m : Machine) :
  rank_zero env = true ->
  epoch_end env st m
  = (Returns tt,
     {| self := self m;
        world := set_artifacts (fun l => (l ++ [results_upload (self m)])%list)
                   (world (logging [epoch_stop_record st] m)) |}).
Proof.
  intros Hz. unfold epoch_end, logging, epoch_stop_record, epoch_num,
    results_upload.
  rewrite Hz. unfold_prims. unfold_monad. unfold_setters.
  destruct m as [s w]. reflexivity.
Qed.

(** X12. The hooks of one epoch with one evaluation, called in the
    trainer's order on global rank zero with the accuracy metric present:
    they log EPOCH_START, BLOCK_START, EVAL_START, EVAL_STOP, EVAL_ACCURACY,
    BLOCK_STOP, then RUN_STOP if it is due, then EPOCH_STOP, in this order;
    they upload the results file once, make no call to the operating system
    and touch no handler object; [success] ends as True exactly if it was
    True or the accuracy exceeds the target. *)
Theorem one_epoch_of_hooks
    (env : Env) (st : State) (m : Machine) (a : float) :
  rank_zero env = true ->
  fetched (self m) st = Some a ->
  let m' := run_hooks env (epoch_hooks st) m in
  logged_keys m m' = epoch_keys (run_stop_due (self m) st)
  /\ uploaded m m' = [results_upload (self m)]
  /\ calls (world m') = calls (world m)
  /\ handler_objects (world m') = handler_objects (world m)
  /\ success (self m') = (success (self m) || exceeds_target (self m) st)%bool.
Proof.
  intros Hz Hf. simpl. unfold call.
  rewrite (epoch_start_run env st m Hz). simpl snd.
  rewrite (eval_start_run env st _ Hz). simpl snd.
  rewrite (eval_end_fetched env st _ a Hz) by exact Hf. simpl snd.
  rewrite (epoch_end_run env st _ Hz). simpl snd.
  unfold logged_keys, uploaded, emitted, added, epoch_keys, run_stop_due.
  simpl self. destruct m as [s w]. simpl self in *.
  destruct (exceeds_target s st); destruct (success s) eqn:Hs; simpl;
    unfold_setters; simpl; rewrite ?Hs;
    rewrite <- ?app_assoc, !drop_app_length; repeat apply conj; reflexivity.
Qed.

Lemma one_epoch_of_hooks_witness :
  let m := initialised in
  let st := Run.state 3 (Run.accuracy 0.8) in
  logged_keys m (run_hooks (Sample.env 0 true) (epoch_hooks st) m)
  = [EPOCH_START; BLOCK_START; EVAL_START; EVAL_STOP; EVAL_ACCURACY;
     BLOCK_STOP; RUN_STOP; EPOCH_STOP].
Proof.
  assert (Hz : rank_zero (Sample.env 0 true) = true) by reflexivity.
  assert (Hf : fetched (self initialised) (Run.state 3 (Run.accuracy 0.8))
               = Some 0.8%float) by (vm_compute; reflexivity).
  assert (Hd : run_stop_due (self initialised)
                 (Run.state 3 (Run.accuracy 0.8)) = true)
    by (vm_compute; reflexivity).
  pose proof (one_epoch_of_hooks (Sample.env 0 true)
                (Run.state 3 (Run.accuracy 0.8)) initialised 0.8%float Hz Hf)
    as H.
  cbv zeta in *. destruct H as [H _]. rewrite H, Hd. reflexivity.
Defined.

(** ** What the hooks after [init] leave alone *)

Lemma hooks_log_events (env : Env) (h : hook) (st : State) :
  h <> Init ->
  stable (on_world (grows mllog_records point_in_time)) (call env h st).
Proof.
  intros Hi. destruct h; try contradiction; simpl; unfold_hooks;
    unfold_prims; repeat world_step; reflexivity.
Qed.

Lemma hooks_keep_warnings (env : Env) (h : hook) (st : State) :
  h <> Init ->
  stable (on_world (keeps warnings)) (call env h st).
Proof.
  intros Hi. destruct h; try contradiction; simpl; unfold_hooks;
    unfold_prims; repeat world_step.
Qed.

Lemma hooks_keep_calls (env : Env) (h : hook) (st : State) :
  h <> Init -> h <> Fit_start ->
  stable (on_world (keeps calls)) (call env h st).
Proof.
  intros Hi Hf. destruct h; try contradiction; simpl; unfold_hooks;
    unfold_prims; repeat world_step.
Qed.

Lemma hooks_keep_artifacts (env : Env) (h : hook) (st : State) :
  h <> Init -> h <> Epoch_end ->
  stable (on_world (keeps artifacts)) (call env h st).
Proof.
  intros Hi Hf. destruct h; try contradiction; simpl; unfold_hooks;
    unfold_prims; repeat world_step.
Qed.

Lemma added_nil {A} (f : World -> list A) (w w' : World) :
  f w' = f w -> added f w w' = [].
Proof. intros E. unfold added. rewrite E. apply drop_all. Qed.

Lemma added_app {A} (f : World -> list A) (w w' : World) (l : list A) :
  f w' = (f w ++ l)%list -> added f w w' = l.
Proof. intros E. unfold added. rewrite E. apply drop_app_length. Qed.

Lemma fit_start_off_rank_zero (env : Env) (st : State) (m : Machine) :
  rank_zero env = false ->
  fit_start env st m
  = (Returns tt,
     {| self := self m;
        world := set_calls (fun l => (l ++ [Barrier])%list)
                   (world (logging [INIT_STOP_event] m)) |}).
Proof.
  intros Hz. unfold fit_start, logging, INIT_STOP_event. rewrite Hz.
  unfold_prims. unfold_monad. destruct m as [s w]. reflexivity.
Qed.

(** X13. After [init], the callback only logs events and only talks to
    the barrier: a hook other than [init] opens no interval (every record
    it logs is a point in time), issues no warning, makes no call to the
    file system or a subprocess, and uploads nothing, with two exceptions:
    [fit_start] may pass the barrier, once, and [epoch_end] may upload the
    results file, once. *)
Theorem hooks_after_init_footprint
    (env : Env) (h : hook) (st : State) (m : Machine) :
  h <> Init ->
  let m' := (call env h st m).2 in
  Forall point_in_time (emitted m m')
  /\ warnings (world m') = warnings (world m)
  /\ (added calls (world m) (world m') = []
      \/ (h = Fit_start /\ added calls (world m) (world m') = [Barrier]))
  /\ (uploaded m m' = []
      \/ (h = Epoch_end /\ uploaded m m' = [results_upload (self m)])).
Proof.
  intros Hi. simpl.
  apply conj.
  { pose proof (hooks_log_events env h st Hi m) as Hg.
    apply grows_added in Hg. apply Hg. }
  apply conj; [apply (hooks_keep_warnings env h st Hi m) |].
  apply conj.
  - destruct (decide (h = Fit_start)) as [-> | Hf].
    + simpl call. destruct (rank_zero env) eqn:Hz.
      * rewrite (fit_start_run env st m Hz).
        destruct (fit_start_checks env st (world m)).1.
        -- right. split; [reflexivity |]. apply added_app.
           destruct m as [s w]. reflexivity.
        -- left. apply added_nil. reflexivity.
      * rewrite (fit_start_off_rank_zero env st m Hz).
        right. split; [reflexivity |]. apply added_app.
        destruct m as [s w]. reflexivity.
    + left. apply added_nil. apply (hooks_keep_calls env h st Hi Hf m).
  - destruct (decide (h = Epoch_end)) as [-> | He].
    + simpl call. destruct (rank_zero env) eqn:Hz.
      * rewrite (epoch_end_run env st m Hz). right.
        split; [reflexivity |]. unfold uploaded. apply added_app.
        destruct m as [s w]. reflexivity.
      * unfold epoch_end. rewrite Hz. left. unfold uploaded.
        apply added_nil. reflexivity.
    + left. unfold uploaded. apply added_nil.
      apply (hooks_keep_artifacts env h st Hi He m).
Qed.

Lemma hooks_after_init_footprint_witness :
  let m := initialised in
  let m' := (call (Sample.env 0 true) Epoch_end (Run.state 1 ∅) m).2 in
  warnings (world m') = warnings (world m).
Proof.
  assert (Hne : Epoch_end <> Init) by discriminate.
  exact (proj1 (proj2 (hooks_after_init_footprint (Sample.env 0 true) Epoch_end
                         (Run.state 1 ∅) initialised Hne))).
Defined.

(** X14. What [fit_start] logs when every check passes, on global rank
    zero: the seed, the global batch size, which is the train dataloader's
    batch size times the world size, the gradient accumulation steps, and
    the lengths of the train and eval datasets, with no metadata; then
    INIT_STOP, then RUN_START. The barrier is passed once, nothing else is
    called, and the object is unchanged. The batch size of the eval
    dataloader plays no role: it may differ or be None. *)
Theorem fit_start_hyperparameters
    (env : Env) (st : State) (m : Machine)
    (b n k : Z) (ev : Evaluator) (eval_batch : option Z) :
  global_rank env = 0 ->
  train_dataloader st = DataLoader (Some b) (SizedDataset n) ->
  evaluators st = [ev] ->
  ev_dataloader ev = DataLoader eval_batch (SizedDataset k) ->
  let m' := (fit_start env st m).2 in
  (fit_start env st m).1 = Returns tt
  /\ self m' = self m
  /\ emitted m m'
     = (dict_records (hyperparameters env st b n k)
        ++ [INIT_STOP_event; event RUN_START VNone])%list
  /\ added calls (world m) (world m') = [Barrier].
Proof.
  intros Hrank Htrain Hevs Hev.
  assert (Hz : rank_zero env = true) by (apply Z.eqb_eq; exact Hrank).
  simpl. rewrite (fit_start_run env st m Hz).
  assert (Hc : (fit_start_checks env st (world m)).1
               = Returns (hyperparameters env st b n k)).
  { unfold fit_start_checks. rewrite Htrain, Hevs. simpl. rewrite Hev.
    reflexivity. }
  rewrite Hc. simpl.
  apply conj; [reflexivity |]. apply conj; [reflexivity |].
  apply conj.
  - unfold emitted. apply added_app. destruct m as [s w]. reflexivity.
  - apply added_app. destruct m as [s w]. reflexivity.
Qed.

Lemma fit_start_hyperparameters_witness :
  let st := {| train_dataloader := DataLoader (Some 32) (SizedDataset 1000);
               evaluators := [{| ev_dataloader :=
                                   DataLoader None (SizedDataset 50) |}];
               seed := 17; grad_accum := 2; timer_epoch := 0;
               current_metrics := ∅ |} in
  (fit_start (Sample.env 0 true) st Run.fresh).1 = Returns tt.
Proof.
  intros st.
  assert (Hrank : global_rank (Sample.env 0 true) = 0) by reflexivity.
  exact (proj1 (fit_start_hyperparameters (Sample.env 0 true) st Run.fresh
                  32 1000 50 {| ev_dataloader := DataLoader None (SizedDataset 50) |}
                  None Hrank eq_refl eq_refl eq_refl)).
Defined.

(** ** A refused call in the setup of [init] *)

Ltac use_unrefused Hun j :=
  let H := fresh "Hj" in
  pose proof (Hun j _ eq_refl) as H;
  cbn [take firstn app] in H; rewrite ?app_nil_r in H.

(** X15. On local rank zero, [init] makes its five [makedirs] calls and
    the write of the system description one after the other and stops at
    the first that the operating system refuses: it raises that call's
    exception, having made the calls up to and including the refused one
    and nothing else. The barrier is not reached, no handler is created or
    attached, nothing is logged or uploaded, and no attribute changes. *)
Theorem init_stops_at_refused_call
    (env : Env) (st : State) (m : Machine)
    (i : nat) (c : ext_call) (e : exn) :
  local_rank env = 0 ->
  setup_calls (self m) !! i = Some c ->
  unrefused env (calls (world m)) (take i (setup_calls (self m))) ->
  os_error env (calls (world m) ++ take i (setup_calls (self m)))%list c
    = Some e ->
  init env st m
  = (Raises e,
     {| self := self m;
        world := set_calls
                   (fun l => (l ++ take (S i) (setup_calls (self m)))%list)
                   (world m) |}).
Proof.
  intros Hl Hc Hun Hre.
  assert (Hl' : (local_rank env =? 0) = true) by (apply Z.eqb_eq; exact Hl).
  destruct m as [s w]. cbn [self world] in *.
  unfold init. rewrite gets_bind. cbn [self]. rewrite Hl'.
  unfold_prims. unfold os_call. unfold_monad. unfold_setters.
  unfold setup_calls, folder_calls, write_call in *.
  cbn [app] in *. cbn [self world calls fst snd].
  unfold os_path_join in *. cbn [fold_left] in *.
  destruct i as [|[|[|[|[|[|i]]]]]]; cbn [lookup list_lookup] in Hc;
    try discriminate; injection Hc as <-;
    cbn [take firstn app] in Hre; rewrite ?app_nil_r in Hre.
  - rewrite Hre. destruct w; reflexivity.
  - use_unrefused Hun 0%nat.
    rewrite Hj. cbn [calls world self fst snd]. rewrite Hre. cbn [calls world self fst snd].
    rewrite <- ?app_assoc. destruct w; reflexivity.
  - use_unrefused Hun 0%nat. use_unrefused Hun 1%nat.
    rewrite Hj. cbn [calls world self fst snd]. rewrite Hj0. cbn [calls world self fst snd].
    rewrite <- ?app_assoc. cbn [app]. rewrite Hre.
    destruct w; reflexivity.
  - use_unrefused Hun 0%nat. use_unrefused Hun 1%nat. use_unrefused Hun 2%nat.
    rewrite Hj. cbn [calls world self fst snd]. rewrite Hj0. cbn [calls world self fst snd].
    rewrite <- ?app_assoc. cbn [app]. rewrite Hj1. cbn [calls world self fst snd].
    rewrite <- ?app_assoc. cbn [app]. rewrite Hre.
    destruct w; reflexivity.
  - use_unrefused Hun 0%nat. use_unrefused Hun 1%nat. use_unrefused Hun 2%nat.
    use_unrefused Hun 3%nat.
    rewrite Hj. cbn [calls world self fst snd]. rewrite Hj0. cbn [calls world self fst snd].
    rewrite <- ?app_assoc. cbn [app]. rewrite Hj1. cbn [calls world self fst snd].
    rewrite <- ?app_assoc. cbn [app]. rewrite Hj2. cbn [calls world self fst snd].
    rewrite <- ?app_assoc. cbn [app]. rewrite Hre.
    destruct w; reflexivity.
  - use_unrefused Hun 0%nat. use_unrefused Hun 1%nat. use_unrefused Hun 2%nat.
    use_unrefused Hun 3%nat. use_unrefused Hun 4%nat.
    rewrite Hj. cbn [calls world self fst snd]. rewrite Hj0. cbn [calls world self fst snd].
    rewrite <- ?app_assoc. cbn [app]. rewrite Hj1. cbn [calls world self fst snd].
    rewrite <- ?app_assoc. cbn [app]. rewrite Hj2. cbn [calls world self fst snd].
    rewrite <- ?app_assoc. cbn [app]. rewrite Hj3. cbn [calls world self fst snd].
    rewrite <- ?app_assoc. cbn [app]. rewrite Hre.
    destruct w; reflexivity.
Qed.

Lemma init_stops_at_refused_call_witness :
  raised (init results_read_only (Run.state 0 ∅) Run.fresh).1 = Some OSError
  /\ calls (world (init results_read_only (Run.state 0 ∅) Run.fresh).2)
     = [ MakeDirs "/submission"; MakeDirs "/submission/results";
         MakeDirs "/submission/results/8xNVIDIA_A100_80GB_composer" ].
Proof.
  assert (Hl : local_rank results_read_only = 0) by reflexivity.
  assert (Hc : setup_calls (self Run.fresh) !! 2%nat
               = Some (MakeDirs
                         "/submission/results/8xNVIDIA_A100_80GB_composer"))
    by (vm_compute; reflexivity).
  assert (Hun : unrefused results_read_only (calls (world Run.fresh))
                  (take 2 (setup_calls (self Run.fresh)))).
  { intros j c Hj. destruct j as [|[|j]]; vm_compute in Hj;
      [injection Hj as <- .. | discriminate]; vm_compute; reflexivity. }
  assert (Hre : os_error results_read_only
                  (calls (world Run.fresh)
                   ++ take 2 (setup_calls (self Run.fresh)))%list
                  (MakeDirs "/submission/results/8xNVIDIA_A100_80GB_composer")
                = Some (Exn OSError "Permission denied"))
    by (vm_compute; reflexivity).
  rewrite (init_stops_at_refused_call results_read_only (Run.state 0 ∅)
             Run.fresh 2 _ _ Hl Hc Hun Hre).
  split; vm_compute; reflexivity.
Defined.

(** ** The order of the constructor's checks *)

(** X16. The constructor checks benchmark, division and status in this
    order and raises at the first that is not accepted, naming the argument
    and its value in the message; the division by the local world size in
    [get_system_description] comes only after the three checks. In each
    case the world is left as it was. *)
Theorem constructor_checks_in_order
    (env : Env) (root : string) (index : Z) (bench : string)
    (tgt : float) (div mname mlabel subm : string)
    (name : option string) (stat : string)
    (cmd : option (list string)) (w : World) :
  mlperf_available env = true ->
  let run := __init__ env root index bench tgt div mname mlabel subm name
               stat cmd w in
  (bench <> "resnet" ->
   run = (Raises (Exn ValueError
            ("benchmark: " ++ bench ++ " must be one of ('resnet',)")), w))
  /\ (bench = "resnet" -> div <> "open" ->
      run = (Raises (Exn ValueError
               ("division: " ++ div ++ " must be one of ('open',)")), w))
  /\ (bench = "resnet" -> div = "open" -> stat ∉ STATUS ->
      run = (Raises (Exn ValueError
               ("status: " ++ stat ++
                " must be one of ('onprem', 'cloud', 'preview')")), w))
  /\ (bench = "resnet" -> div = "open" -> stat ∈ STATUS ->
      local_world_size env = 0 ->
      run = (Raises (Exn ZeroDivisionError "division by zero"), w)).
Proof.
  intros Hav. simpl. unfold __init__, require_mlperf_logging. rewrite Hav.
  assert (Hb : "resnet" ∈ BENCHMARKS) by (apply in_BENCHMARKS; reflexivity).
  assert (Hd : "open" ∈ DIVISIONS) by (apply in_DIVISIONS; reflexivity).
  repeat apply conj.
  - intros Hne.
    assert (Hn : bench ∉ BENCHMARKS) by (rewrite in_BENCHMARKS; exact Hne).
    rewrite (bool_decide_eq_false_2 _ Hn). reflexivity.
  - intros -> Hne.
    assert (Hn : div ∉ DIVISIONS) by (rewrite in_DIVISIONS; exact Hne).
    rewrite (bool_decide_eq_true_2 _ Hb), (bool_decide_eq_false_2 _ Hn).
    reflexivity.
  - intros -> -> Hn.
    rewrite (bool_decide_eq_true_2 _ Hb), (bool_decide_eq_true_2 _ Hd),
      (bool_decide_eq_false_2 _ Hn).
    reflexivity.
  - intros -> -> Hs Hz.
    rewrite (bool_decide_eq_true_2 _ Hb), (bool_decide_eq_true_2 _ Hd),
      (bool_decide_eq_true_2 _ Hs).
    destruct (get_system_description_cases env subm "open" stat name w)
      as [[_ E] | [Hnz _]]; [| contradiction].
    unfold_monad. simpl. rewrite E. reflexivity.
Qed.

Lemma constructor_checks_in_order_witness :
  __init__ (Sample.env 0 true) "/submission" 0 "bert" 0.759%float "closed"
    "Accuracy" "eval" "MosaicML" None "onprem" None Sample.empty_world
  = (Raises (Exn ValueError "benchmark: bert must be one of ('resnet',)"),
     Sample.empty_world).
Proof.
  assert (Hav : mlperf_available (Sample.env 0 true) = true) by reflexivity.
  assert (Hne : "bert" <> "resnet") by discriminate.
  exact (proj1 (constructor_checks_in_order (Sample.env 0 true) "/submission"
                  0 "bert" 0.759%float "closed" "Accuracy" "eval" "MosaicML"
                  None "onprem" None Sample.empty_world Hav) Hne).
Defined.

(** ** [close] at the end of a run *)

Lemma hooks_keep_file_handler (env : Env) (h : hook) (st : State) (m : Machine) :
  h <> Init ->
  _file_handler (self (call env h st m).2) = _file_handler (self m).
Proof.
  intros Hi. destruct (decide (h = Eval_end)) as [-> | He].
  - apply (eval_end_frame env st m).
  - pose proof (other_hooks_frame env h st Hi He m) as Hf.
    unfold on_self, frame_all in Hf. rewrite Hf. reflexivity.
Qed.

Lemma close_objects (st : State) (m : Machine) (h : nat) (o : FileHandler) :
  _file_handler (self m) = Some h ->
  handler_objects (world m) !! h = Some o ->
  self (close st m).2 = self m
  /\ handler_objects (world (close st m).2)
     = <[h := closed_handler o]> (handler_objects (world m)).
Proof.
  intros Hh Ho. destruct m as [s w]. simpl in *.
  unfold close. rewrite gets_bind. simpl self. rewrite Hh.
  unfold handler_close. unfold_monad. unfold_setters. simpl.
  rewrite !Hh. simpl. rewrite Ho. split; reflexivity.
Qed.

(** What a hook other than [init] does to the handler objects, on an
    object that holds a file handler. *)
Lemma hooks_objects (env : Env) (k : hook) (st : State) (m : Machine)
    (h : nat) (o : FileHandler) :
  k <> Init ->
  _file_handler (self m) = Some h ->
  handler_objects (world m) !! h = Some o ->
  let m' := (call env k st m).2 in
  handler_objects (world m') = handler_objects (world m)
  \/ handler_objects (world m')
     = <[h := closed_handler o]> (handler_objects (world m)).
Proof.
  intros Hi Hh Ho. simpl. destruct (decide (k = Close)) as [-> | Hc].
  - right. apply (close_objects st m h o Hh Ho).
  - left. apply (hooks_keep_objects env k st Hi Hc m).
Qed.

Lemma close_after_hooks_from
    (env : Env) (st : State) (h : nat) (hs : list (hook * State)) :
  after_init hs ->
  forall (m : Machine) (o : FileHandler),
    _file_handler (self m) = Some h ->
    handler_objects (world m) !! h = Some o ->
    let m' := (close st (run_hooks env hs m)).2 in
    handler_objects (world m') !! h = Some (closed_handler o)
    /\ (forall j : nat, j <> h ->
          handler_objects (world m') !! j = handler_objects (world m) !! j)
    /\ _file_handler (self m') = Some h.
Proof.
  induction 1 as [|[k st'] hs Hk _ IH]; intros m o Hh Ho; simpl.
  - destruct (close_objects st m h o Hh Ho) as [Hs Hobjs].
    rewrite Hs, Hobjs. repeat apply conj.
    + apply list_lookup_insert_eq. eapply lookup_lt_Some, Ho.
    + intros j Hj. apply list_lookup_insert_ne. congruence.
    + exact Hh.
  - simpl in Hk.
    pose proof (hooks_keep_file_handler env k st' m Hk) as Hh'.
    rewrite Hh in Hh'.
    destruct (hooks_objects env k st' m h o Hk Hh Ho) as [E | E]; simpl in E.
    + assert (Ho' : handler_objects (world (call env k st' m).2) !! h = Some o)
        by (rewrite E; exact Ho).
      destruct (IH _ o Hh' Ho') as (H1 & H2 & H3). simpl in *.
      repeat apply conj; [exact H1 | | exact H3].
      intros j Hj. rewrite (H2 j Hj), E. reflexivity.
    + assert (Ho' : handler_objects (world (call env k st' m).2) !! h
                    = Some (closed_handler o)).
      { rewrite E. apply list_lookup_insert_eq. eapply lookup_lt_Some, Ho. }
      destruct (IH _ (closed_handler o) Hh' Ho') as (H1 & H2 & H3). simpl in *.
      repeat apply conj; [exact H1 | | exact H3].
      intros j Hj. rewrite (H2 j Hj), E.
      apply list_lookup_insert_ne. congruence.
Qed.

(** X17. Whatever hooks have run since [init], in whatever order and
    whether they returned or raised, including an [eval_end] that has
    detached the file handler from the logger and an earlier [close],
    [close] marks the callback's file handler object closed, keeping its
    file name and level, and changes no other handler object; the object
    still holds the handler afterwards. *)
Theorem close_after_hooks
    (env : Env) (hs : list (hook * State)) (st : State) (m : Machine)
    (h : nat) (o : FileHandler) :
  after_init hs ->
  _file_handler (self m) = Some h ->
  handler_objects (world m) !! h = Some o ->
  let m' := (close st (run_hooks env hs m)).2 in
  handler_objects (world m') !! h = Some (closed_handler o)
  /\ (forall j : nat, j <> h ->
        handler_objects (world m') !! j = handler_objects (world m) !! j)
  /\ _file_handler (self m') = Some h.
Proof.
  intros Hhs Hh Ho. exact (close_after_hooks_from env st h hs Hhs m o Hh Ho).
Qed.

Lemma close_after_hooks_witness :
  let st := Run.state 1 (Run.accuracy 0.8) in
  let m := initialised in
  _file_handler (self (close st (run_hooks (Sample.env 0 true)
                                   [(Eval_end, st); (Close, st)] m)).2)
  = Some 0%nat.
Proof.
  assert (Hhs : after_init [(Eval_end, Run.state 1 (Run.accuracy 0.8));
                            (Close, Run.state 1 (Run.accuracy 0.8))])
    by (repeat constructor; discriminate).
  assert (Hh : _file_handler (self initialised) = Some 0%nat)
    by (vm_compute; reflexivity).
  assert (Ho : handler_objects (world initialised) !! 0%nat
               = Some (results_handler (self initialised)))
    by (vm_compute; reflexivity).
  exact (proj2 (proj2 (close_after_hooks (Sample.env 0 true) _
                         (Run.state 1 (Run.accuracy 0.8)) initialised 0
                         (results_handler (self initialised)) Hhs Hh Ho))).
Defined.

(** ** The hooks by rank *)

(** The records of an [init] that returns, on any rank. *)
Lemma init_returns_records (env : Env) (st : State) (m : Machine) :
  (init env st m).1 = Returns tt ->
  emitted m (init env st m).2 = init_records env (self m).
Proof.
  rewrite init_split.
  destruct (before_check_keeps env) as (_ & _ & Hrec & _).
  specialize (Hrec m). unfold on_world, keeps in Hrec.
  destruct (before_check env m) as [[[]|e] m1] eqn:E; simpl in *.
  2:{ rewrite (bind_raises _ _ _ _ _ E). discriminate. }
  rewrite (bind_returns _ _ _ _ _ E).
  destruct (after_barrier_cases env (self m) m1)
    as [(_ & Hr) | [(_ & e & _ & Hr) | [(_ & _ & c & e & _ & _ & Hr)
       | (_ & _ & _ & Hr)]]]; simpl in Hr; rewrite Hr; try discriminate.
  intros _. unfold emitted, added, with_results_handler. simpl.
  rewrite Hrec. apply drop_app_length.
Qed.

(** The records of a [fit_start] that returns hold INIT_STOP, on any
    rank. *)
Lemma fit_start_returns_INIT_STOP (env : Env) (st : State) (m : Machine) :
  (fit_start env st m).1 = Returns tt ->
  INIT_STOP_event ∈ emitted m (fit_start env st m).2.
Proof.
  destruct (rank_zero env) eqn:Hz.
  - rewrite (fit_start_run env st m Hz).
    destruct (fit_start_checks env st (world m)).1 as [data|e];
      [| discriminate].
    intros _. unfold emitted.
    erewrite (added_app mllog_records) by (destruct m as [s w]; reflexivity).
    set_solver.
  - rewrite (fit_start_off_rank_zero env st m Hz). intros _.
    unfold emitted.
    erewrite (added_app mllog_records) by (destruct m as [s w]; reflexivity).
    set_solver.
Qed.

(** C4, amended. Off global rank zero, [epoch_start], [epoch_end],
    [eval_start] and [eval_end] return without touching the object or the
    world, so they log nothing and upload nothing; [init] logs no submission
    metadata and uploads nothing, its only records being the starts of the
    CACHE_CLEAR and INIT_START intervals; and [fit_start] returns, logs
    exactly the INIT_STOP event and uploads nothing. On every rank, zero or
    not, an [init] that returns has logged the start of the CACHE_CLEAR
    interval when there is a cache clear command, then the start of the
    INIT_START interval, and then the submission metadata exactly when the
    global rank is zero; and a [fit_start] that returns has logged the
    INIT_STOP event. *)
Theorem hooks_off_rank_zero (env : Env) (st : State) (m : Machine) :
  (global_rank env <> 0 ->
   (forall h : hook,
      h ∈ [Epoch_start; Epoch_end; Eval_start; Eval_end] ->
      call env h st m = (Returns tt, m)
      /\ emitted m (call env h st m).2 = []
      /\ uploaded m (call env h st m).2 = [])
   /\ (Forall (is_interval_start [CACHE_CLEAR; INIT_START])
         (emitted m (init env st m).2)
       /\ uploaded m (init env st m).2 = [])
   /\ ((fit_start env st m).1 = Returns tt
       /\ emitted m (fit_start env st m).2 = [INIT_STOP_event]
       /\ uploaded m (fit_start env st m).2 = []))
  /\ ((init env st m).1 = Returns tt ->
      emitted m (init env st m).2
      = (match cache_clear_cmd (self m) with
         | Some _ => [CACHE_CLEAR_interval]
         | None => []
         end ++ [INIT_START_interval] ++
         (if global_rank env =? 0 then submission_records (self m) else []))%list
      /\ INIT_START_interval ∈ emitted m (init env st m).2
      /\ (cache_clear_cmd (self m) <> None ->
          CACHE_CLEAR_interval ∈ emitted m (init env st m).2))
  /\ ((fit_start env st m).1 = Returns tt ->
      INIT_STOP_event ∈ emitted m (fit_start env st m).2).
Proof.
  apply conj; [exact (quiet_off_rank_zero env st m) |].
  apply conj; [| exact (fit_start_returns_INIT_STOP env st m)].
  intros Hret. rewrite (init_returns_records env st m Hret).
  unfold init_records, rank_zero.
  apply conj; [reflexivity |]. apply conj; [set_solver |].
  intros Hcmd. destruct (cache_clear_cmd (self m)); [set_solver | congruence].
Qed.

Lemma hooks_off_rank_zero_witness :
  let env := Sample.env 1 true in
  let st := Run.state 1 (Run.accuracy 0.8%float) in
  call env Eval_end st fresh_with_command = (Returns tt, fresh_with_command)
  /\ emitted fresh_with_command (fit_start env st fresh_with_command).2
     = [INIT_STOP_event]
  /\ INIT_START_interval
       ∈ emitted fresh_with_command (init env st fresh_with_command).2
  /\ CACHE_CLEAR_interval
       ∈ emitted fresh_with_command (init env st fresh_with_command).2
  /\ INIT_STOP_event
       ∈ emitted fresh_with_command (fit_start env st fresh_with_command).2.
Proof.
  intros env st.
  assert (Hrank : global_rank env <> 0) by discriminate.
  assert (Hinit : (init env st fresh_with_command).1 = Returns tt)
    by (vm_compute; reflexivity).
  assert (Hfit : (fit_start env st fresh_with_command).1 = Returns tt)
    by (vm_compute; reflexivity).
  assert (Hcmd : cache_clear_cmd (self fresh_with_command) <> None)
    by (vm_compute; discriminate).
  destruct (hooks_off_rank_zero env st fresh_with_command)
    as (Hoff & Hevery & Hstop).
  destruct (Hoff Hrank) as (Hquiet & _ & _ & Hfit' & _).
  destruct (Hevery Hinit) as (_ & Hstart & Hclear).
  split; [| split; [exact Hfit' | split; [exact Hstart |
    split; [exact (Hclear Hcmd) | exact (Hstop Hfit)]]]].
  refine (proj1 (Hquiet Eval_end _)).
  do 3 apply list_elem_of_further. apply list_elem_of_here.
Defined.
